(** * The Prisma component of LoopBack 4: lifecycle and binding locks

    A shallow embedding of [PrismaComponent] (constructor, [init], [start],
    [stop]), of [createBindingFromPrismaModelName] and of the option types of
    [types.ts].  The component is glue between a dependency-injection
    container and a database client; both are objects with identity that the
    component mutates, so the embedding threads one explicit state through
    every call: a heap of [Binding] objects, the registry of the container
    (key to binding reference, in insertion order), the listeners of the
    middleware view, the store of client objects, the fields of the component
    and a trace of the effects performed so far.

    The container ([Context], [Binding], [ContextView] of [@loopback/core])
    and the client of [@prisma/client] are not among the sources; their
    operations are modelled, each under a comment that says so, and the
    constants of [keys.ts] and of the generated client are parameters.

    [async] functions are embedded as their sequential run: an [await]
    continues with the settled value, a rejection is a [Throw].  The
    notification of a new binding reaches the view once the registration is
    complete, before the next operation of the run. *)

From Stdlib Require Import Ascii.
From stdpp Require Import base strings list option.

(** ** JavaScript helpers *)

(** [String.prototype.toLowerCase], on the ASCII letters that a model name is
    made of. *)
Definition ascii_toLowerCase (a : ascii) : ascii :=
  let n := nat_of_ascii a in
  if (65 <=? n) && (n <=? 90) then ascii_of_nat (n + 32) else a.

Fixpoint toLowerCase (s : string) : string :=
  match s with
  | EmptyString => EmptyString
  | String a r => String (ascii_toLowerCase a) (toLowerCase r)
  end.

(** ** Data of [types.ts] *)

(** [Prisma.PrismaClientOptions] is opaque to the component: it is only handed
    to the client constructor. *)
Definition PrismaClientOptions := string.

(** The [models] member of [PrismaOptions]. *)
Record PrismaModelsOptions := mkModels {
  namespace : option string;
  tags : option (list string)
}.

(** [interface PrismaOptions]: every member is optional. *)
Record PrismaOptions := mkOptions {
  prismaClient : option PrismaClientOptions;
  lazyConnect : option bool;
  models : option PrismaModelsOptions
}.

(** ** Data of the container *)

(** Modelled from the spec: [BindingScope] of the container, which is not
    among the sources; the component only compares with [SINGLETON]. *)
Inductive BindingScope :=
  TRANSIENT | CONTEXT | SINGLETON | APPLICATION | SERVER | REQUEST.

(** Modelled from the spec: [BindingType] of the container, which is not
    among the sources; the component only compares with [CONSTANT]. *)
Inductive BindingType := CONSTANT | DYNAMIC_VALUE | CLASS | PROVIDER | ALIAS.

(** What a binding can resolve to.  Clients and middleware functions are
    objects compared by reference, so they are named by their identity. *)
Inductive Value :=
  | VNull
  | VOptions (o : PrismaOptions)
  | VClient (c : nat)
  | VMiddleware (m : nat)
  | VProperty (c : nat) (p : string)
  | VOther (what : string).

(** Modelled from the spec: a [Binding] of the container ("a named
    registration mapping a key to a value/factory"), with its lock flag.
    [source] is unset until [to] (or a factory method) is called; for a
    factory it holds the value that resolution yields.  The getter [scope]
    defaults to [TRANSIENT]. *)
Record Binding := mkBinding {
  key : string;
  source : option (BindingType * Value);
  _scope : option BindingScope;
  tagMap : list (string * string);
  isLocked : bool
}.

Definition scope (b : Binding) : BindingScope := default TRANSIENT (_scope b).
Definition type (b : Binding) : option BindingType := fst <$> source b.

#[global] Instance PrismaModelsOptions_eq_dec : EqDecision PrismaModelsOptions.
Proof. solve_decision. Defined.
#[global] Instance PrismaOptions_eq_dec : EqDecision PrismaOptions.
Proof. solve_decision. Defined.
#[global] Instance BindingScope_eq_dec : EqDecision BindingScope.
Proof. solve_decision. Defined.
#[global] Instance BindingType_eq_dec : EqDecision BindingType.
Proof. solve_decision. Defined.
#[global] Instance Value_eq_dec : EqDecision Value.
Proof. solve_decision. Defined.

(** ** Data of the database client *)

(** Modelled from the spec: a [PrismaClient] object, which belongs to
    [@prisma/client]: the options it was made from, the middleware chain that
    [$use] extends, and what its [$connect] settles to ([None]: resolves,
    [Some msg]: rejects). *)
Record Client := mkClient {
  clientOptions : option PrismaClientOptions;
  middlewares : list Value;
  connectFails : option string
}.

(** ** The component and the state of a run *)

(** The private fields of [class PrismaComponent].  [_app] is the container
    part of [State]; [_prismaMiddleware] is the one middleware view of that
    container, whose listeners are in [State]. *)
Record PrismaComponent := mkComponent {
  _optionsBinding : option nat;
  _isInitialized : bool;
  _prismaClient : option nat;
  _options : PrismaOptions
}.

(** The two closures the component subscribes to the ['bind'] event of the
    middleware view: the one of the constructor and the one of [init]. *)
Inductive Listener := LockOnBind | UseOnBind.

(** Observable effects, in the order they happen. *)
Inductive Event :=
  | EAdd (b : nat)
  | ELock (b : nat)
  | ENewClient (c : nat)
  | EUse (c : nat) (m : Value)
  | EConnect (c : nat)
  | EDisconnect (c : nat).

#[global] Instance Event_eq_dec : EqDecision Event.
Proof. solve_decision. Defined.

Record State := mkState {
  heap : list Binding;
  registry : list (string * nat);
  listeners : list Listener;
  clients : list Client;
  this : PrismaComponent;
  trace : list Event
}.

(** Why the container refuses an operation. *)
Inductive ContextFailure := KeyNotBound | NoValueConfigured | RebindLocked.

Inductive Exception :=
  | JsError (message : string)
  | PrismaClientNotSingletonError
  | ContextError (why : ContextFailure) (k : string)
  | TypeError (what : string)
  | ConnectError (message : string).

(** ** A state and exception monad

    A thrown exception keeps the state reached so far, as in JavaScript. *)

Inductive Completion (A : Type) :=
  | Normal (a : A)
  | Throw (e : Exception).
Arguments Normal {A} a.
Arguments Throw {A} e.

Definition M (A : Type) : Type := State -> Completion A * State.

#[global] Instance M_ret : MRet M := fun A a s => (Normal a, s).
#[global] Instance M_bind : MBind M := fun A B f m s =>
  match m s with
  | (Normal a, s1) => f a s1
  | (Throw e, s1) => (Throw e, s1)
  end.

Definition gets {A} (f : State -> A) : M A := fun s => (Normal (f s), s).
Definition modify (f : State -> State) : M unit := fun s => (Normal tt, f s).
Definition throw {A} (e : Exception) : M A := fun s => (Throw e, s).

(** [for (const x of l) f(x)] *)
Fixpoint forEach {A} (f : A -> M unit) (l : list A) : M unit :=
  match l with
  | [] => mret tt
  | x :: r => f x;; forEach f r
  end.

(** The values of [f] on [l], left to right. *)
Fixpoint mapM {A B} (f : A -> M B) (l : list A) : M (list B) :=
  match l with
  | [] => mret []
  | x :: r => y ← f x; ys ← mapM f r; mret (y :: ys)
  end.

Definition set_heap (h : list Binding) (s : State) : State :=
  mkState h (registry s) (listeners s) (clients s) (this s) (trace s).
Definition set_registry (r : list (string * nat)) (s : State) : State :=
  mkState (heap s) r (listeners s) (clients s) (this s) (trace s).
Definition set_listeners (l : list Listener) (s : State) : State :=
  mkState (heap s) (registry s) l (clients s) (this s) (trace s).
Definition set_clients (c : list Client) (s : State) : State :=
  mkState (heap s) (registry s) (listeners s) c (this s) (trace s).
Definition set_this (t : PrismaComponent) (s : State) : State :=
  mkState (heap s) (registry s) (listeners s) (clients s) t (trace s).
Definition set_trace (t : list Event) (s : State) : State :=
  mkState (heap s) (registry s) (listeners s) (clients s) (this s) t.

Definition emit (e : Event) : M unit :=
  modify (fun s => set_trace (trace s ++ [e]) s).

(** ** The container *)

(** Tag maps are association lists; [tag_set] overwrites in place. *)
Fixpoint tag_lookup (n : string) (t : list (string * string)) : option string :=
  match t with
  | [] => None
  | (n', v) :: r => if String.eqb n' n then Some v else tag_lookup n r
  end.

Fixpoint tag_set (n v : string) (t : list (string * string))
    : list (string * string) :=
  match t with
  | [] => [(n, v)]
  | (n', v') :: r =>
      if String.eqb n' n then (n, v) :: r else (n', v') :: tag_set n v r
  end.

(** The registry is a JavaScript [Map]: a key that is set again keeps its
    place, a new key goes to the end. *)
Fixpoint registry_get (k : string) (reg : list (string * nat)) : option nat :=
  match reg with
  | [] => None
  | (k', r) :: rest => if String.eqb k' k then Some r else registry_get k rest
  end.

Fixpoint registry_set (k : string) (r : nat) (reg : list (string * nat))
    : list (string * nat) :=
  match reg with
  | [] => [(k, r)]
  | (k', r') :: rest =>
      if String.eqb k' k then (k, r) :: rest
      else (k', r') :: registry_set k r rest
  end.

(** Reading a binding object through its reference. *)
Definition deref (r : nat) : M Binding := fun s =>
  match heap s !! r with
  | Some b => (Normal b, s)
  | None => (Throw (TypeError "no such binding object"), s)
  end.

Definition update_binding (r : nat) (f : Binding -> Binding) : M unit :=
  b ← deref r;
  modify (fun s => set_heap (<[r := f b]> (heap s)) s).

(** Modelled from the spec: [new Binding(key)] of the container; a fresh
    object, unlocked, with no value, scope or tag. *)
Definition new_Binding (k : string) : M nat :=
  r ← gets (fun s => length (heap s));
  modify (fun s => set_heap (heap s ++ [mkBinding k None None [] false]) s);;
  mret r.

(** Modelled from the spec: [Binding.to(value)] of the container: the binding
    becomes a constant. *)
Definition binding_to (r : nat) (v : Value) : M unit :=
  update_binding r (fun b =>
    mkBinding (key b) (Some (CONSTANT, v)) (_scope b) (tagMap b) (isLocked b)).

(** Modelled from the spec: [Binding.inScope(scope)] of the container. *)
Definition binding_inScope (r : nat) (sc : BindingScope) : M unit :=
  update_binding r (fun b =>
    mkBinding (key b) (source b) (Some sc) (tagMap b) (isLocked b)).

(** Modelled from the spec: [Binding.tag(name)] of the container: the tag
    [name] with itself as value. *)
Definition binding_tag (r : nat) (n : string) : M unit :=
  update_binding r (fun b =>
    mkBinding (key b) (source b) (_scope b) (tag_set n n (tagMap b))
              (isLocked b)).

(** A binding with its lock flag set. *)
Definition locked (b : Binding) : Binding :=
  mkBinding (key b) (source b) (_scope b) (tagMap b) true.

(** Modelled from the spec: [Binding.lock()] of the container ("marking a
    binding immutable"): it sets the lock flag of this binding object. *)
Definition binding_lock (r : nat) : M unit :=
  update_binding r locked;;
  emit (ELock r).

(** Modelled from the spec: resolving a binding; one that was never given a
    value cannot be resolved. *)
Definition binding_getValue (r : nat) : M Value :=
  b ← deref r;
  match source b with
  | Some (_, v) => mret v
  | None => throw (ContextError NoValueConfigured (key b))
  end.

(** Modelled from the spec: [getBinding(key, {optional: true})]. *)
Definition app_getBinding_optional (k : string) : M (option nat) :=
  gets (fun s => registry_get k (registry s)).

(** Modelled from the spec: [getBinding(key)], which throws on an unbound
    key. *)
Definition app_getBinding (k : string) : M nat :=
  o ← app_getBinding_optional k;
  match o with
  | Some r => mret r
  | None => throw (ContextError KeyNotBound k)
  end.

(** Modelled from the spec: [add(binding)] of the container.  The lock is
    enforced here ("once true, further mutation attempts must fail"): a key
    whose registered binding is locked cannot be given another binding. *)
Definition app_add (r : nat) : M unit :=
  b ← deref r;
  existing ← app_getBinding_optional (key b);
  match existing with
  | Some r' =>
      b' ← deref r';
      if isLocked b' then throw (ContextError RebindLocked (key b))
      else mret tt
  | None => mret tt
  end;;
  modify (fun s => set_registry (registry_set (key b) r (registry s)) s);;
  emit (EAdd r).

(** Modelled from the spec: [bind(key)] of the container: a new binding
    object is registered under the key (a rebind when the key is in use) and
    returned for chaining. *)
Definition app_bind (k : string) : M nat :=
  r ← new_Binding k;
  app_add r;;
  mret r.

(** Modelled from the spec: [getSync(key, {optional: true})]: [undefined] for
    an unbound key, the resolved value otherwise. *)
Definition app_getSync_optional (k : string) : M (option Value) :=
  o ← app_getBinding_optional k;
  match o with
  | None => mret None
  | Some r => v ← binding_getValue r; mret (Some v)
  end.

(** Modelled from the spec: [getSync(key)] and the awaited [get(key)]. *)
Definition app_getSync (k : string) : M Value :=
  r ← app_getBinding k;
  binding_getValue r.

Definition app_get (k : string) : M Value := app_getSync k.

(** Modelled from the spec: [configBindingKeyFor(key)] of the container, the
    key under which the configuration of [key] is bound. *)
Definition configBindingKeyFor (k : string) : string := k +:+ ":$config".

(** ** Constants of the package and of the generated client *)

(** Modelled from the spec: the namespace [PrismaBindings] of [keys.ts],
    which is not among the sources.  Its five constants are parameters. *)
Class PrismaBindings := {
  COMPONENT : string;
  PRISMA_CLIENT_INSTANCE : string;
  PRISMA_MODEL_NAMESPACE : string;
  PRISMA_MODEL_TAG : string;
  PRISMA_MIDDLEWARE_EXTENSION_POINT : string
}.

(** Modelled from the spec: what [@prisma/client] generates from the schema
    of the application: the keys of the enum [Prisma.ModelName], and what
    [$connect] of a client made by [new PrismaClient(options)] settles to. *)
Class PrismaSchema := {
  ModelName : list string;
  connectOutcome : option PrismaClientOptions -> option string
}.

(** The messages of the three [new Error(...)] of the component. *)
Definition conflict_message : string :=
  "A Prisma Client instance was provided whilst a different instance was bound to context.".
Definition not_constant_message : string :=
  "Prisma Client instance binding type not constant.".
Definition middleware_message : string :=
  "Prisma middleware is not bound as singleton and/or constant.".

Section Component.
Context `{!PrismaBindings} `{!PrismaSchema}.

(** [const componentConfigBindingKey] *)
Definition componentConfigBindingKey : string :=
  configBindingKeyFor COMPONENT.

(** [export const DEFAULT_PRISMA_OPTIONS] *)
Definition DEFAULT_PRISMA_OPTIONS : PrismaOptions :=
  mkOptions None (Some false)
    (Some (mkModels (Some PRISMA_MODEL_NAMESPACE) (Some [PRISMA_MODEL_TAG]))).

(** *** The database client *)

Definition client_of (c : nat) : M Client := fun s =>
  match clients s !! c with
  | Some cl => (Normal cl, s)
  | None => (Throw (TypeError "no such client object"), s)
  end.

(** [new PrismaClient(options)] *)
Definition new_PrismaClient (o : option PrismaClientOptions) : M nat :=
  c ← gets (fun s => length (clients s));
  modify (fun s =>
    set_clients (clients s ++ [mkClient o [] (connectOutcome o)]) s);;
  emit (ENewClient c);;
  mret c.

(** [client.$use(middleware)]: the chain grows at its end. *)
Definition client_use (c : nat) (m : Value) : M unit :=
  cl ← client_of c;
  modify (fun s =>
    set_clients
      (<[c := mkClient (clientOptions cl) (middlewares cl ++ [m])
                       (connectFails cl)]> (clients s)) s);;
  emit (EUse c m).

(** [client.$connect()], awaited. *)
Definition client_connect (c : nat) : M unit :=
  cl ← client_of c;
  emit (EConnect c);;
  match connectFails cl with
  | None => mret tt
  | Some msg => throw (ConnectError msg)
  end.

(** [client.$disconnect()] *)
Definition client_disconnect (c : nat) : M unit :=
  _ ← client_of c;
  emit (EDisconnect c).

(** Modelled from the spec: the client "exposes per-model accessor
    properties".  The generated client is not among the sources:
    [@prisma/client] names the accessor of a model by the model name with its
    first character in lower case, [prisma.user] for the model [User] and
    [prisma.blogPost] for the model [BlogPost]. *)
Definition accessor_name (modelName : string) : string :=
  match modelName with
  | EmptyString => EmptyString
  | String a r => String (ascii_toLowerCase a) r
  end.

(** Modelled from the spec: [client[prop]] on a generated client, as far as
    the models go: the model whose accessor the property [prop] is.  [None]
    stands for [undefined]: no model has an accessor of that name. *)
Definition client_accessor (prop : string) : option string :=
  List.find (fun n => String.eqb (accessor_name n) prop) ModelName.

(** *** The middleware view of the container *)

(** Modelled from the spec: [extensionFilter(point)] of the container: the
    bindings tagged as extensions for the extension point. *)
Definition extensionFilter (point : string) (b : Binding) : bool :=
  match tag_lookup "extensionFor" (tagMap b) with
  | Some p => String.eqb p point
  | None => false
  end.

Definition in_view (h : list Binding) (r : nat) : bool :=
  match h !! r with
  | Some b => extensionFilter PRISMA_MIDDLEWARE_EXTENSION_POINT b
  | None => false
  end.

(** Modelled from the spec: [ContextView.bindings]: the registered bindings
    that pass the filter, in the order of the registry. *)
Definition view_bindings : M (list nat) :=
  gets (fun s => List.filter (in_view (heap s)) (snd <$> registry s)).

(** Modelled from the spec: [ContextView.values()], awaited: the bindings of
    the view resolved in order. *)
Definition view_values : M (list Value) :=
  bs ← view_bindings;
  mapM binding_getValue bs.

(** Modelled from the spec: [ContextView.on('bind', listener)]; listeners run
    in the order they were added. *)
Definition view_on_bind (l : Listener) : M unit :=
  modify (fun s => set_listeners (listeners s ++ [l]) s).

(** The arrow function that [init] subscribes (lines 275 to 289). *)
Definition use_on_bind (r : nat) : M unit :=
  binding ← deref r;
  if bool_decide (type binding ≠ Some CONSTANT)
     || bool_decide (scope binding ≠ SINGLETON)
  then throw (JsError middleware_message)
  else
    prismaClient ← app_getSync PRISMA_CLIENT_INSTANCE;
    middleware ← app_getSync (key binding);
    match prismaClient with
    | VClient c => client_use c middleware
    | _ => throw (TypeError "prismaClient.$use is not a function")
    end.

Definition run_listener (r : nat) (l : Listener) : M unit :=
  match l with
  | LockOnBind => binding_lock r
  | UseOnBind => use_on_bind r
  end.

(** Modelled from the spec: [ContextView] is told of a new binding ("a
    callback invoked synchronously whenever a new entry is added to a watched
    collection"): when the binding passes the filter, every listener runs, in
    the order of subscription; a listener that throws ends the delivery. *)
Definition view_observe (r : nat) : M unit :=
  b ← deref r;
  if extensionFilter PRISMA_MIDDLEWARE_EXTENSION_POINT b then
    ls ← gets listeners;
    forEach (run_listener r) ls
  else mret tt.

(** *** [createBindingFromPrismaModelName] *)

Definition createBindingFromPrismaModelName (modelObj : Value)
    (modelName : string) : M nat :=
  r ← new_Binding (PRISMA_MODEL_NAMESPACE +:+ "." +:+ modelName);
  binding_to r modelObj;;
  binding_tag r PRISMA_MODEL_TAG;;
  mret r.

(** *** [class PrismaComponent] *)

Definition upd_this (f : PrismaComponent -> PrismaComponent) : M unit :=
  modify (fun s => set_this (f (this s)) s).

(** [get isInitialized()] *)
Definition isInitialized : M bool := gets (fun s => _isInitialized (this s)).

(** [a ?? b] on an optional member. *)
Definition nullish {A} (a b : option A) : option A :=
  match a with
  | Some x => Some x
  | None => b
  end.

(** [private static _ensureNoConflictingPrismaProvidedAndBound] *)
Definition _ensureNoConflictingPrismaProvidedAndBound
    (prismaClient : option nat) : M unit :=
  match prismaClient with
  | None => mret tt
  | Some c =>
      bound ← app_getSync_optional PRISMA_CLIENT_INSTANCE;
      let other :=
        match bound with
        | None | Some VNull => VClient c
        | Some v => v
        end in
      if bool_decide (VClient c ≠ other) then
        throw (JsError conflict_message)
      else mret tt
  end.

(** [private static _ensureValidPrismaClientBinding] *)
Definition _ensureValidPrismaClientBinding (prismaClient : nat) : M unit :=
  prismaClientBinding ← app_getBinding_optional PRISMA_CLIENT_INSTANCE;
  match prismaClientBinding with
  | None =>
      r ← app_bind PRISMA_CLIENT_INSTANCE;
      binding_to r (VClient prismaClient);;
      binding_inScope r SINGLETON
  | Some r =>
      b ← deref r;
      if bool_decide (scope b ≠ SINGLETON) then
        throw PrismaClientNotSingletonError
      else if bool_decide (type b ≠ Some CONSTANT) then
        throw (JsError not_constant_message)
      else mret tt
  end.

(** Lines 167 to 171 of the constructor: [namespace] and [tags] are filled in
    when the caller gave a [models] record. *)
Definition augment_defaults (o : PrismaOptions) : PrismaOptions :=
  match models o with
  | Some m =>
      mkOptions (prismaClient o) (lazyConnect o)
        (Some (mkModels
          (nullish (namespace m) (models DEFAULT_PRISMA_OPTIONS ≫= namespace))
          (nullish (tags m) (models DEFAULT_PRISMA_OPTIONS ≫= tags))))
  | None => o
  end.

(** [constructor(_app, _prismaClient?, _options = DEFAULT_PRISMA_OPTIONS)],
    called directly (the component used standalone): the fields declared
    without an initializer are [undefined] when the body starts, so both
    [??=] assign.  The source fills in the defaults by assigning to the
    members of the caller's record; here the record of the component is
    replaced by the filled one. *)
Definition constructor (prismaClient : option nat)
    (options : option PrismaOptions) : M unit :=
  modify (set_this
    (mkComponent None false prismaClient
       (default DEFAULT_PRISMA_OPTIONS options)));;
  _ensureNoConflictingPrismaProvidedAndBound prismaClient;;
  (* this._prismaMiddleware ??= this._app.createView(...) *)
  modify (set_listeners []);;
  (* backlog and future middleware binding locking *)
  backlog ← view_bindings;
  forEach binding_lock backlog;;
  view_on_bind LockOnBind;;
  (* this._optionsBinding ??= getBinding(...) ?? bind(...) *)
  found ← app_getBinding_optional componentConfigBindingKey;
  optionsBinding ← match found with
                   | Some r => mret r
                   | None => app_bind componentConfigBindingKey
                   end;
  upd_this (fun t =>
    mkComponent (Some optionsBinding) (_isInitialized t) (_prismaClient t)
                (_options t));;
  (* deep augment defaults for any unset options *)
  upd_this (fun t =>
    mkComponent (_optionsBinding t) (_isInitialized t) (_prismaClient t)
                (augment_defaults (_options t)));;
  b ← deref optionsBinding;
  match type b with
  | None =>
      r ← app_bind componentConfigBindingKey;
      o ← gets (fun s => _options (this s));
      binding_to r (VOptions o)
  | Some _ => mret tt
  end.

(** Lines 239 to 259 of [init]: the client is validated against its binding,
    or made from the bound options and bound. *)
Definition resolve_client : M unit :=
  supplied ← gets (fun s => _prismaClient (this s));
  _ensureNoConflictingPrismaProvidedAndBound supplied;;
  match supplied with
  | Some c => _ensureValidPrismaClientBinding c
  | None =>
      (* late refresh of the options cache *)
      v ← app_get componentConfigBindingKey;
      match v with
      | VOptions o =>
          upd_this (fun t =>
            mkComponent (_optionsBinding t) (_isInitialized t)
                        (_prismaClient t) o);;
          c ← new_PrismaClient (prismaClient o);
          upd_this (fun t =>
            mkComponent (_optionsBinding t) (_isInitialized t) (Some c)
                        (_options t));;
          r ← app_bind PRISMA_CLIENT_INSTANCE;
          binding_to r (VClient c);;
          binding_inScope r SINGLETON
      | _ => throw (TypeError "the configuration is not a PrismaOptions")
      end
  end.

(** Lines 261 to 268 of [init]. *)
Definition lock_bindings : M unit :=
  prismaClientBinding ← app_getBinding PRISMA_CLIENT_INSTANCE;
  optionsBinding ← gets (fun s => _optionsBinding (this s));
  match optionsBinding with
  | Some r => binding_lock r
  | None => throw (TypeError "this._optionsBinding is undefined")
  end;;
  binding_lock prismaClientBinding.

(** [this._prismaClient!], the field read where the source asserts it set. *)
Definition the_client : M nat :=
  c ← gets (fun s => _prismaClient (this s));
  match c with
  | Some c => mret c
  | None => throw (TypeError "this._prismaClient is undefined")
  end.

(** Lines 270 to 289 of [init]: the backlog of middleware is attached and the
    listener for later registrations is subscribed. *)
Definition attach (middleware : Value) : M unit :=
  c ← the_client;
  client_use c middleware.

Definition attach_middleware : M unit :=
  prismaMiddlewares ← view_values;
  forEach attach prismaMiddlewares;;
  view_on_bind UseOnBind.

(** Lines 291 to 301 of [init]: the body of the loop, and the loop over the
    model names. *)
Definition bind_model (modelName : string) : M unit :=
  c ← the_client;
  r ← createBindingFromPrismaModelName
        (VProperty c (toLowerCase modelName)) modelName;
  binding_lock r;;
  app_add r.

Definition bind_models : M unit := forEach bind_model ModelName.

(** [async init()] *)
Definition init : M unit :=
  initialized ← isInitialized;
  if (initialized : bool) then (mret tt : M unit)
  else
    resolve_client;;
    lock_bindings;;
    attach_middleware;;
    bind_models;;
    upd_this (fun t =>
      mkComponent (_optionsBinding t) true (_prismaClient t) (_options t)).

(** [async start()] *)
Definition start : M unit :=
  initialized ← isInitialized;
  (if negb initialized then init else mret tt : M unit);;
  o ← gets (fun s => _options (this s));
  if default false (lazyConnect o) then (mret tt : M unit)
  else c ← the_client; client_connect c.

(** [stop()] *)
Definition stop : M unit :=
  initialized ← isInitialized;
  if negb initialized then (mret tt : M unit)
  else c ← the_client; client_disconnect c.

(** *** What the application does around the component *)

(** A binding contributed to the middleware extension point, as the README
    registers one ([bind(key)], a value, a scope, the extension tag), with
    any binding type and scope. *)
Definition bind_middleware (k : string) (ty : BindingType) (v : Value)
    (sc : option BindingScope) : M nat :=
  r ← app_bind k;
  update_binding r (fun b =>
    mkBinding (key b) (Some (ty, v)) sc
      (tag_set "extensionFor" PRISMA_MIDDLEWARE_EXTENSION_POINT (tagMap b))
      (isLocked b));;
  mret r.

(** The registration followed by its notification to the view. *)
Definition register_middleware (k : string) (ty : BindingType) (v : Value)
    (sc : option BindingScope) : M unit :=
  r ← bind_middleware k ty v sc;
  view_observe r.

End Component.

(** ** Concrete applications

    A set of keys, a schema with two models, and the states that the
    evaluated examples start from. *)
Module Sample.

#[export] Instance keys : PrismaBindings := {|
  COMPONENT := "components.PrismaComponent";
  PRISMA_CLIENT_INSTANCE := "datasources.prisma";
  PRISMA_MODEL_NAMESPACE := "prismaModels";
  PRISMA_MODEL_TAG := "prismaModel";
  PRISMA_MIDDLEWARE_EXTENSION_POINT := "prismaMiddleware"
|}.

#[export] Instance schema : PrismaSchema := {|
  ModelName := ["User"; "BlogPost"];
  connectOutcome := fun _ => None
|}.

(** An application with nothing bound and no client made. *)
Definition empty : State :=
  mkState [] [] [] [] (mkComponent None false None (mkOptions None None None))
          [].

(** [new PrismaComponent(app)] on the empty application. *)
Definition standalone : State := snd (constructor None None empty).

(** ... and after [init()]. *)
Definition initialized : State := snd (init standalone).

(** [new PrismaComponent(app, undefined, {lazyConnect: true})], initialized. *)
Definition lazy : State :=
  snd ((constructor None (Some (mkOptions None (Some true) None));; init)
         empty).

(** Two middleware functions registered between construction and [init]. *)
Definition with_backlog : State :=
  snd ((register_middleware "mw1" CONSTANT (VMiddleware 1) (Some SINGLETON);;
        register_middleware "mw2" CONSTANT (VMiddleware 2) (Some SINGLETON))
         standalone).

(** An application that made a client itself and bound it with the given
    binding type and scope. *)
Definition app_with_client (ty : BindingType) (sc : option BindingScope)
    : State :=
  mkState [mkBinding PRISMA_CLIENT_INSTANCE (Some (ty, VClient 0)) sc [] false]
          [(PRISMA_CLIENT_INSTANCE, 0)] []
          [mkClient None [] None; mkClient None [] (Some "P1001")]
          (mkComponent None false None (mkOptions None None None)) [].

(** The client bound as the component expects it: a singleton constant. *)
Definition bound_client : State := app_with_client CONSTANT (Some SINGLETON).

(** [new PrismaComponent(app, client)] where the application bound the same
    client through a factory, as a singleton. *)
Definition factory_bound : State :=
  snd (constructor (Some 0) None
         (app_with_client DYNAMIC_VALUE (Some SINGLETON))).

(** The same with a constant binding left in the default, transient scope. *)
Definition transient_bound : State :=
  snd (constructor (Some 0) None (app_with_client CONSTANT None)).

(** The application bound a client as a transient constant, and the component
    is made without being handed it. *)
Definition bound_not_supplied : State :=
  snd (constructor None None (app_with_client CONSTANT None)).

(** Options in which the caller set nothing. *)
Definition nothing_set : PrismaOptions := mkOptions None None None.

(** Options with a namespace and a tag of the caller's. *)
Definition custom_models : PrismaOptions :=
  mkOptions None None
    (Some (mkModels (Some "customPrismaModelNamespace")
                    (Some ["customPrismaModelTag"]))).

(** [new PrismaComponent(app, undefined, custom_models)]. *)
Definition custom : State :=
  snd (constructor None (Some custom_models) empty).

(** [new PrismaComponent(app, undefined, {models: {}})]. *)
Definition empty_models : PrismaOptions :=
  mkOptions None None (Some (mkModels None None)).

(** An application that bound the configuration of the component itself,
    with [lazyConnect] set, before the component is made. *)
Definition configured : State :=
  mkState [mkBinding componentConfigBindingKey
             (Some (CONSTANT, VOptions (mkOptions None (Some true) None)))
             None [] false]
          [(componentConfigBindingKey, 0)] [] []
          (mkComponent None false None (mkOptions None None None)) [].

(** [new PrismaComponent(app, client)] where the application bound the same
    client as a singleton constant. *)
Definition handed : State := snd (constructor (Some 0) None bound_client).

(** A middleware bound before the component is made. *)
Definition early_middleware : State :=
  snd (bind_middleware "mw0" CONSTANT (VMiddleware 0) (Some SINGLETON) empty).

(** A binding tagged for the middleware extension point that was never given
    a value, registered after the component was made. *)
Definition valueless_middleware : State :=
  mkState
    (heap standalone ++
       [mkBinding "mw0" None None
          [("extensionFor", PRISMA_MIDDLEWARE_EXTENSION_POINT)] true])
    (registry standalone ++ [("mw0", length (heap standalone))])
    (listeners standalone) (clients standalone) (this standalone)
    (trace standalone).

(** A second component made on the application of an initialized one. *)
Definition second : State := snd (constructor None None initialized).

End Sample.

(** ** Notions that the statements use *)

Section Specification.
Context `{!PrismaBindings} `{!PrismaSchema}.

(** "merges supplied options over defaults": every member the caller left
    unset takes the default, at both levels of the record. *)
Definition merge_over_defaults (o : PrismaOptions) : PrismaOptions :=
  mkOptions
    (nullish (prismaClient o) (prismaClient DEFAULT_PRISMA_OPTIONS))
    (nullish (lazyConnect o) (lazyConnect DEFAULT_PRISMA_OPTIONS))
    (match models o with
     | Some m =>
         Some (mkModels (nullish (namespace m) (Some PRISMA_MODEL_NAMESPACE))
                        (nullish (tags m) (Some [PRISMA_MODEL_TAG])))
     | None => models DEFAULT_PRISMA_OPTIONS
     end).

(** The middleware chain of a client; empty for a client not made yet. *)
Definition middlewares_of (c : nat) (s : State) : list Value :=
  from_option middlewares [] (clients s !! c).


(** The key under which the accessor of a model is bound. *)
Definition model_key (modelName : string) : string :=
  PRISMA_MODEL_NAMESPACE +:+ "." +:+ modelName.

(** The binding that [init] registers for a model, as it is in the heap
    afterwards. *)
Definition model_binding (c : nat) (modelName : string) : Binding :=
  mkBinding (model_key modelName)
            (Some (CONSTANT, VProperty c (toLowerCase modelName))) None
            [(PRISMA_MODEL_TAG, PRISMA_MODEL_TAG)] true.

(** The binding that holds the client of the component. *)
Definition client_binding (c : nat) : Binding :=
  mkBinding PRISMA_CLIENT_INSTANCE (Some (CONSTANT, VClient c))
            (Some SINGLETON) [] false.

(** The references that [view_bindings] returns. *)
Definition view_refs (s : State) : list nat :=
  List.filter (in_view (heap s)) (snd <$> registry s).

(** The binding object behind [r] resolves to [v]. *)
Definition resolves_to (h : list Binding) (r : nat) (v : Value) : Prop :=
  exists b ty, h !! r = Some b /\ source b = Some (ty, v).

(** The view is the same in two states: the same bindings pass the filter,
    every binding object keeps what it resolves to, and the registry lists
    the same references of the view. *)
Definition view_stable (s s' : State) : Prop :=
  (forall r, in_view (heap s') r = in_view (heap s) r) /\
  (forall r v, resolves_to (heap s) r v -> resolves_to (heap s') r v) /\
  view_refs s' = view_refs s.

(** The binding object behind [r] is locked. *)
Definition is_locked (h : list Binding) (r : nat) : Prop :=
  exists b, h !! r = Some b /\ isLocked b = true.

(** Every reference of the registry is a binding object of the heap. *)
Definition registry_wf (s : State) : Prop :=
  Forall (fun r => r < length (heap s)) (snd <$> registry s).

End Specification.

(** [preserves R m]: whatever [m] does, and however it ends, the states
    before and after are related by [R]. *)
Definition preserves {A} (R : State -> State -> Prop) (m : M A) : Prop :=
  forall s res s', m s = (res, s') -> R s s'.

(** The part [proj] of the state is the same. *)
Definition same {X} (proj : State -> X) (s s' : State) : Prop :=
  proj s' = proj s.

(** [throws_only P m]: every exception that [m] ends with satisfies [P]. *)
Definition throws_only {A} (P : Exception -> Prop) (m : M A) : Prop :=
  forall s e s', m s = (Throw e, s') -> P e.

(** Every binding object of [s] is still there in [s'], with its key and
    what it resolves to. *)
Definition keeps_sources (s s' : State) : Prop :=
  forall r b, heap s !! r = Some b ->
    exists b', heap s' !! r = Some b' /\ source b' = source b.

(** Every binding object locked in [s] is locked in [s']. *)
Definition keeps_locked (s s' : State) : Prop :=
  forall r, is_locked (heap s) r -> is_locked (heap s') r.

(** [registry_wf] is not lost from [s] to [s']. *)
Definition keeps_wf (s s' : State) : Prop := registry_wf s -> registry_wf s'.

(** * Properties *)

(** ** Running the monad *)

Lemma bind_run {A B} (m : M A) (f : A -> M B) (s : State) :
  (m ≫= f) s =
  match m s with
  | (Normal a, s1) => f a s1
  | (Throw e, s1) => (Throw e, s1)
  end.
Proof. reflexivity. Qed.

Lemma bind_Normal {A B} (m : M A) (f : A -> M B) s b s' :
  (m ≫= f) s = (Normal b, s') ->
  exists a s1, m s = (Normal a, s1) /\ f a s1 = (Normal b, s').
Proof.
  rewrite bind_run. destruct (m s) as [[a|e] s1]; [eauto | discriminate].
Qed.

Lemma bind_step {A B} (m : M A) (f : A -> M B) s a s1 :
  m s = (Normal a, s1) -> (m ≫= f) s = f a s1.
Proof. intros E. rewrite bind_run, E. reflexivity. Qed.

Lemma bind_throw {A B} (m : M A) (f : A -> M B) s e s1 :
  m s = (Throw e, s1) -> (m ≫= f) s = (Throw e, s1).
Proof. intros E. rewrite bind_run, E. reflexivity. Qed.

Lemma bind_assoc {A B C} (m : M A) (f : A -> M B) (g : B -> M C) s :
  ((m ≫= f) ≫= g) s = (m ≫= (fun a => f a ≫= g)) s.
Proof. rewrite !bind_run. destruct (m s) as [[a|e] s1]; reflexivity. Qed.

(** ** Lists used as a store *)

Lemma lookup_snoc {A} (l : list A) (x : A) : (l ++ [x]) !! length l = Some x.
Proof. by apply list_lookup_middle. Qed.

Lemma insert_snoc {A} (l : list A) (x y : A) :
  <[length l := y]> (l ++ [x]) = l ++ [y].
Proof.
  replace (length l) with (length l + 0) by lia.
  by rewrite insert_app_r.
Qed.

Lemma lookup_snoc_Some {A} (l : list A) (x y : A) (i : nat) :
  l !! i = Some y -> (l ++ [x]) !! i = Some y.
Proof. intros E. by rewrite lookup_app_l_Some with (x := y). Qed.

(** ** The registry *)

Lemma registry_get_set k k' r reg :
  registry_get k (registry_set k' r reg) =
  if String.eqb k' k then Some r else registry_get k reg.
Proof.
  induction reg as [|[k0 r0] reg IH]; cbn.
  - destruct (String.eqb k' k); reflexivity.
  - destruct (String.eqb k0 k') eqn:E0; cbn.
    + apply String.eqb_eq in E0 as ->.
      destruct (String.eqb k' k); reflexivity.
    + destruct (String.eqb k0 k) eqn:E1; [|exact IH].
      apply String.eqb_eq in E1 as ->.
      rewrite String.eqb_sym, E0. reflexivity.
Qed.

Lemma registry_get_set_eq k r reg : registry_get k (registry_set k r reg) = Some r.
Proof. rewrite registry_get_set, String.eqb_refl. reflexivity. Qed.

Lemma registry_get_set_ne k k' r reg :
  k' <> k -> registry_get k (registry_set k' r reg) = registry_get k reg.
Proof.
  intros N. rewrite registry_get_set.
  destruct (String.eqb k' k) eqn:E; [|reflexivity].
  apply String.eqb_eq in E. contradiction.
Qed.

Lemma registry_set_fresh k r reg :
  registry_get k reg = None -> registry_set k r reg = reg ++ [(k, r)].
Proof.
  induction reg as [|[k0 r0] reg IH]; cbn; [reflexivity|].
  destruct (String.eqb k0 k); [discriminate|].
  intros E. rewrite (IH E). reflexivity.
Qed.

(** ** The primitive operations, run *)

Lemma deref_run r s b : heap s !! r = Some b -> deref r s = (Normal b, s).
Proof. unfold deref. by intros ->. Qed.

Lemma deref_Normal r s b s' :
  deref r s = (Normal b, s') -> s' = s /\ heap s !! r = Some b.
Proof.
  unfold deref. destruct (heap s !! r); intros [= <- <-] || intros [=]; auto.
Qed.

Lemma update_binding_run r f s b :
  heap s !! r = Some b ->
  update_binding r f s = (Normal tt, set_heap (<[r := f b]> (heap s)) s).
Proof.
  intros E. unfold update_binding. rewrite (bind_step _ _ _ _ _ (deref_run _ _ _ E)).
  reflexivity.
Qed.

Lemma binding_lock_run r s b :
  heap s !! r = Some b ->
  binding_lock r s =
  (Normal tt,
   set_trace (trace s ++ [ELock r])
     (set_heap (<[r := locked b]> (heap s)) s)).
Proof.
  intros E. unfold binding_lock.
  rewrite (bind_step _ _ _ _ _ (update_binding_run _ _ _ _ E)). reflexivity.
Qed.

Lemma getSync_optional_state k s : snd (app_getSync_optional k s) = s.
Proof.
  unfold app_getSync_optional, app_getBinding_optional, gets.
  rewrite bind_run. destruct (registry_get k (registry s)) as [r|]; [|reflexivity].
  unfold binding_getValue, deref. rewrite !bind_run.
  destruct (heap s !! r) as [b|]; [|reflexivity].
  destruct (source b) as [[ty v]|]; reflexivity.
Qed.

Lemma getSync_optional_result k s s0 :
  heap s0 = heap s -> registry s0 = registry s ->
  fst (app_getSync_optional k s0) = fst (app_getSync_optional k s).
Proof.
  intros Hh Hr.
  unfold app_getSync_optional, app_getBinding_optional, gets.
  rewrite !bind_run, Hr.
  destruct (registry_get k (registry s)) as [r|]; [|reflexivity].
  unfold binding_getValue, deref. rewrite !bind_run, Hh.
  destruct (heap s !! r) as [b|]; [|reflexivity].
  destruct (source b) as [[ty v]|]; reflexivity.
Qed.

Lemma modify_run f s : modify f s = (Normal tt, f s).
Proof. reflexivity. Qed.

Lemma gets_run {A} (f : State -> A) s : gets f s = (Normal (f s), s).
Proof. reflexivity. Qed.

Lemma mret_run {A} (a : A) s : (mret a : M A) s = (Normal a, s).
Proof. reflexivity. Qed.

Lemma throw_run {A} e s : (throw e : M A) s = (Throw e, s).
Proof. reflexivity. Qed.

(** One step of a computation whose head reads or writes the state. *)
Ltac run_pure :=
  repeat (first
    [ rewrite bind_assoc
    | rewrite (bind_step _ _ _ _ _ (gets_run _ _))
    | rewrite (bind_step _ _ _ _ _ (modify_run _ _))
    | rewrite (bind_step _ _ _ _ _ (mret_run _ _))
    | rewrite mret_run
    | rewrite throw_run ]; cbv beta iota).

Ltac run_pure_in H :=
  repeat (first
    [ rewrite bind_assoc in H
    | rewrite (bind_step _ _ _ _ _ (gets_run _ _)) in H
    | rewrite (bind_step _ _ _ _ _ (modify_run _ _)) in H
    | rewrite (bind_step _ _ _ _ _ (mret_run _ _)) in H
    | rewrite mret_run in H
    | rewrite throw_run in H ]; cbv beta iota in H).

(** One step with a run lemma [E : m s = (Normal a, s1)]. *)
Tactic Notation "step" uconstr(E) :=
  rewrite ?bind_assoc; rewrite (bind_step _ _ _ _ _ E); cbv beta.

Lemma the_client_run s c :
  _prismaClient (this s) = Some c -> the_client s = (Normal c, s).
Proof. intros E. unfold the_client. run_pure. rewrite E. reflexivity. Qed.

Lemma client_use_run c m s cl :
  clients s !! c = Some cl ->
  client_use c m s =
  (Normal tt,
   set_trace (trace s ++ [EUse c m])
     (set_clients
        (<[c := mkClient (clientOptions cl) (middlewares cl ++ [m])
                         (connectFails cl)]> (clients s)) s)).
Proof.
  intros E. unfold client_use, client_of, emit. rewrite bind_run, E.
  reflexivity.
Qed.

Lemma client_connect_run c s cl :
  clients s !! c = Some cl ->
  client_connect c s =
  (match connectFails cl with
   | None => Normal tt
   | Some msg => Throw (ConnectError msg)
   end, set_trace (trace s ++ [EConnect c]) s).
Proof.
  intros E. unfold client_connect, client_of. rewrite bind_run, E.
  rewrite bind_run. cbn. destruct (connectFails cl); reflexivity.
Qed.

(** ** Frames: what a computation leaves alone

    [preserves R m]: whatever [m] does, and however it ends, the states
    before and after are related by [R]. *)


#[global] Instance same_preorder {X} (proj : State -> X) : PreOrder (same proj).
Proof.
  split; [intros s; reflexivity|].
  intros s1 s2 s3 E1 E2. unfold same in *. congruence.
Qed.

Section Frames.
Context (R : State -> State -> Prop) `{!PreOrder R}.

Lemma preserves_ret {A} (a : A) : preserves R (mret a : M A).
Proof. intros s res s' [= <- <-]. reflexivity. Qed.

Lemma preserves_throw {A} e : preserves R (throw e : M A).
Proof. intros s res s' [= <- <-]. reflexivity. Qed.

Lemma preserves_gets {A} (f : State -> A) : preserves R (gets f).
Proof. intros s res s' [= <- <-]. reflexivity. Qed.

Lemma preserves_modify f : (forall s, R s (f s)) -> preserves R (modify f).
Proof. intros Hf s res s' [= <- <-]. apply Hf. Qed.

Lemma preserves_bind {A B} (m : M A) (f : A -> M B) :
  preserves R m -> (forall a, preserves R (f a)) -> preserves R (m ≫= f).
Proof.
  intros Hm Hf s res s'. rewrite bind_run.
  destruct (m s) as [[a|e] s1] eqn:E.
  - intros Hk. transitivity s1; [exact (Hm _ _ _ E) | exact (Hf _ _ _ _ Hk)].
  - intros [= <- <-]. exact (Hm _ _ _ E).
Qed.

Lemma preserves_forEach {A} (f : A -> M unit) l :
  (forall a, preserves R (f a)) -> preserves R (forEach f l).
Proof.
  intros Hf. induction l as [|x l IH]; cbn [forEach].
  - apply preserves_ret.
  - apply preserves_bind; [apply Hf | intros _; exact IH].
Qed.

Lemma preserves_mapM {A B} (f : A -> M B) l :
  (forall a, preserves R (f a)) -> preserves R (mapM f l).
Proof.
  intros Hf. induction l as [|x l IH]; cbn [mapM].
  - apply preserves_ret.
  - apply preserves_bind; [apply Hf | intros y].
    apply preserves_bind; [exact IH | intros ys; apply preserves_ret].
Qed.

Lemma preserves_deref r : preserves R (deref r).
Proof.
  intros s res s'. unfold deref.
  destruct (heap s !! r); intros [= <- <-]; reflexivity.
Qed.

Lemma preserves_client_of c : preserves R (client_of c).
Proof.
  intros s res s'. unfold client_of.
  destruct (clients s !! c); intros [= <- <-]; reflexivity.
Qed.

End Frames.

(** The rules above, applied as far as they go; what is left are the writes
    to the state, each closed by computation when it misses the part that
    [R] looks at. *)
Ltac frame_step :=
  cbv beta;
  lazymatch goal with
  | |- PreOrder _ => typeclasses eauto
  | |- forall _, _ => intros ?
  | |- preserves _ (_ ≫= _) => apply preserves_bind
  | |- preserves _ (mret _) => apply preserves_ret
  | |- preserves _ (throw _) => apply preserves_throw
  | |- preserves _ (gets _) => apply preserves_gets
  | |- preserves _ (deref _) => apply preserves_deref
  | |- preserves _ (client_of _) => apply preserves_client_of
  | |- preserves _ (forEach _ _) => apply preserves_forEach
  | |- preserves _ (mapM _ _) => apply preserves_mapM
  | |- preserves _ (modify _) => apply preserves_modify; intros ?; reflexivity
  | |- preserves _ (match ?x with _ => _ end) => destruct x
  | |- preserves _ (let _ := _ in _) => cbv zeta
  end.

Ltac frame := repeat frame_step.

(** Every operation down to reads, writes and loops. *)
Ltac unfold_ops :=
  unfold register_middleware, bind_middleware, stop, start, init, bind_models,
    attach_middleware, lock_bindings, resolve_client, constructor,
    _ensureValidPrismaClientBinding,
    _ensureNoConflictingPrismaProvidedAndBound,
    createBindingFromPrismaModelName, view_observe, run_listener, use_on_bind,
    the_client, isInitialized, upd_this, view_on_bind, view_values,
    view_bindings, client_disconnect, client_connect, client_use,
    new_PrismaClient, app_get, app_getSync, app_getSync_optional, app_bind,
    app_add, app_getBinding, app_getBinding_optional, binding_getValue,
    binding_lock, binding_tag, binding_inScope, binding_to, new_Binding,
    update_binding, emit.

(** From a run [H : m s = (res, s')], the fact that [proj] is the same in
    [s] and [s'], when [m] never writes it. *)
Ltac framed proj H :=
  let F := fresh "F" in
  lazymatch type of H with
  | ?m ?s = (?res, ?s') =>
      assert (F : same proj s s') by
        (refine ((_ : preserves (same proj) m) s res s' H);
         unfold_ops; frame)
  end.

Tactic Notation "frame_of" constr(proj) hyp(H) "as" ident(F) :=
  lazymatch type of H with
  | ?m ?s = (?res, ?s') =>
      assert (F : same proj s s') by
        (refine ((_ : preserves (same proj) m) s res s' H);
         unfold_ops; frame)
  end.

(** ** Which exceptions a computation can end with *)

Section Throws.
Context (P : Exception -> Prop).

Lemma throws_only_ret {A} (a : A) : throws_only P (mret a : M A).
Proof. intros s e s' [=]. Qed.

Lemma throws_only_gets {A} (f : State -> A) : throws_only P (gets f).
Proof. intros s e s' [=]. Qed.

Lemma throws_only_modify f : throws_only P (modify f).
Proof. intros s e s' [=]. Qed.

Lemma throws_only_throw {A} e : P e -> throws_only P (throw e : M A).
Proof. intros He s e' s' [= <- <-]. exact He. Qed.

Lemma throws_only_bind {A B} (m : M A) (f : A -> M B) :
  throws_only P m -> (forall a, throws_only P (f a)) ->
  throws_only P (m ≫= f).
Proof.
  intros Hm Hf s e s'. rewrite bind_run.
  destruct (m s) as [[a|e0] s1] eqn:E.
  - apply Hf.
  - intros [= <- <-]. exact (Hm _ _ _ E).
Qed.

Lemma throws_only_forEach {A} (f : A -> M unit) l :
  (forall a, throws_only P (f a)) -> throws_only P (forEach f l).
Proof.
  intros Hf. induction l as [|x l IH]; cbn [forEach].
  - apply throws_only_ret.
  - apply throws_only_bind; [apply Hf | intros _; exact IH].
Qed.

Lemma throws_only_mapM {A B} (f : A -> M B) l :
  (forall a, throws_only P (f a)) -> throws_only P (mapM f l).
Proof.
  intros Hf. induction l as [|x l IH]; cbn [mapM].
  - apply throws_only_ret.
  - apply throws_only_bind; [apply Hf | intros y].
    apply throws_only_bind; [exact IH | intros ys; apply throws_only_ret].
Qed.

Lemma throws_only_deref r :
  (forall what, P (TypeError what)) -> throws_only P (deref r).
Proof.
  intros HP s e s'. unfold deref.
  destruct (heap s !! r); intros [= <- <-]. apply HP.
Qed.

Lemma throws_only_client_of c :
  (forall what, P (TypeError what)) -> throws_only P (client_of c).
Proof.
  intros HP s e s'. unfold client_of.
  destruct (clients s !! c); intros [= <- <-]. apply HP.
Qed.

End Throws.

(** The rules above, applied as far as they go; [tac] closes the side
    conditions on the exceptions thrown. *)
Ltac throws_step tac :=
  cbv beta;
  lazymatch goal with
  | |- forall _, _ => intros ?
  | |- throws_only _ (_ ≫= _) => apply throws_only_bind
  | |- throws_only _ (mret _) => apply throws_only_ret
  | |- throws_only _ (throw _) => apply throws_only_throw; tac
  | |- throws_only _ (gets _) => apply throws_only_gets
  | |- throws_only _ (modify _) => apply throws_only_modify
  | |- throws_only _ (deref _) => apply throws_only_deref; intros ?; tac
  | |- throws_only _ (client_of _) =>
      apply throws_only_client_of; intros ?; tac
  | |- throws_only _ (forEach _ _) => apply throws_only_forEach
  | |- throws_only _ (mapM _ _) => apply throws_only_mapM
  | |- throws_only _ (match ?x with _ => _ end) => destruct x
  | |- throws_only _ (let _ := _ in _) => cbv zeta
  end.

Ltac throws tac := repeat throws_step tac.

(** ** More operations, run *)

(** Projections and setters of the state, computed away. *)
Ltac norm :=
  unfold set_heap, set_registry, set_listeners, set_clients, set_this,
    set_trace in *;
  cbn [heap registry listeners clients this trace fst snd] in *.

Lemma new_Binding_run k s :
  new_Binding k s =
  (Normal (length (heap s)),
   set_heap (heap s ++ [mkBinding k None None [] false]) s).
Proof. reflexivity. Qed.

Lemma app_add_run_fresh r s b :
  heap s !! r = Some b ->
  registry_get (key b) (registry s) = None ->
  app_add r s =
  (Normal tt,
   set_trace (trace s ++ [EAdd r])
     (set_registry (registry s ++ [(key b, r)]) s)).
Proof.
  intros Hb Hk. unfold app_add, app_getBinding_optional, emit.
  rewrite (bind_step _ _ _ _ _ (deref_run _ _ _ Hb)). run_pure.
  rewrite Hk. run_pure. rewrite (registry_set_fresh _ _ _ Hk). reflexivity.
Qed.

Lemma app_add_Normal r s s' :
  app_add r s = (Normal tt, s') ->
  exists b, heap s !! r = Some b /\
    (forall r' b', registry_get (key b) (registry s) = Some r' ->
                   heap s !! r' = Some b' -> isLocked b' = false) /\
    s' = set_trace (trace s ++ [EAdd r])
           (set_registry (registry_set (key b) r (registry s)) s).
Proof.
  unfold app_add, app_getBinding_optional, emit. intros Hrun.
  apply bind_Normal in Hrun as (b & s1 & Hd & Hrun).
  apply deref_Normal in Hd as [-> Hb]. exists b. split; [exact Hb|].
  run_pure_in Hrun. split.
  - intros r' b' Hr' Hb'. rewrite Hr' in Hrun.
    rewrite bind_assoc, (bind_step _ _ _ _ _ (deref_run _ _ _ Hb')) in Hrun.
    destruct (isLocked b'); [|reflexivity].
    run_pure_in Hrun. rewrite bind_run in Hrun. discriminate.
  - destruct (registry_get (key b) (registry s)) as [r'|].
    + rewrite bind_assoc in Hrun.
      apply bind_Normal in Hrun as (b' & s2 & Hd & Hrun).
      apply deref_Normal in Hd as [-> Hb'].
      destruct (isLocked b').
      * rewrite bind_run in Hrun. discriminate.
      * run_pure_in Hrun. by injection Hrun as <-.
    + run_pure_in Hrun. by injection Hrun as <-.
Qed.

Lemma app_bind_run_fresh k s :
  registry_get k (registry s) = None ->
  app_bind k s =
  (Normal (length (heap s)),
   set_trace (trace s ++ [EAdd (length (heap s))])
     (set_registry (registry s ++ [(k, length (heap s))])
        (set_heap (heap s ++ [mkBinding k None None [] false]) s))).
Proof.
  intros Hk. unfold app_bind.
  rewrite (bind_step _ _ _ _ _ (new_Binding_run _ _)).
  set (nb := mkBinding k None None [] false).
  assert (Hb : heap (set_heap (heap s ++ [nb]) s) !! length (heap s) = Some nb)
    by apply lookup_snoc.
  rewrite (bind_step _ _ _ _ _ (app_add_run_fresh _ _ _ Hb Hk)). reflexivity.
Qed.

Section Properties.
Context `{!PrismaBindings} `{!PrismaSchema}.

Lemma init_when_initialized s :
  _isInitialized (this s) = true -> init s = (Normal tt, s).
Proof.
  intros E. unfold init, isInitialized. rewrite bind_run. cbn. rewrite E.
  reflexivity.
Qed.

Lemma init_sets_initialized s s' :
  init s = (Normal tt, s') -> _isInitialized (this s') = true.
Proof.
  destruct (_isInitialized (this s)) eqn:E.
  - rewrite (init_when_initialized _ E). intros [= <-]. exact E.
  - unfold init, isInitialized. rewrite bind_run. cbn. rewrite E.
    intros Hrun.
    repeat (apply bind_Normal in Hrun as (? & ? & _ & Hrun)).
    injection Hrun as <-. reflexivity.
Qed.

(** C1: a second [init()] after a successful one returns at once and leaves
    the state as it is, so [init(); init()] is [init()]. *)
Theorem C1_init_idempotent s s' :
  init s = (Normal tt, s') ->
  init s' = (Normal tt, s') /\ (init;; init) s = init s.
Proof.
  intros Hrun. pose proof (init_sets_initialized _ _ Hrun) as Hi.
  split.
  - apply init_when_initialized, Hi.
  - rewrite bind_run, Hrun. rewrite (init_when_initialized _ Hi). reflexivity.
Qed.

(** ** Construction: the conflict check *)

Lemma ensureNoConflicting_run c s bound :
  fst (app_getSync_optional PRISMA_CLIENT_INSTANCE s) = Normal bound ->
  _ensureNoConflictingPrismaProvidedAndBound (Some c) s =
  (match bound with
   | None | Some VNull => Normal tt
   | Some v =>
       if bool_decide (VClient c ≠ v) then Throw (JsError conflict_message)
       else Normal tt
   end, s).
Proof.
  intros Hb. unfold _ensureNoConflictingPrismaProvidedAndBound.
  rewrite bind_run.
  pose proof (getSync_optional_state PRISMA_CLIENT_INSTANCE s) as Hs.
  destruct (app_getSync_optional PRISMA_CLIENT_INSTANCE s) as [res s1].
  cbn in Hb, Hs. subst res s1.
  destruct bound as [v|].
  - destruct v; try reflexivity;
      try (rewrite bool_decide_eq_false_2 by (intros N; by apply N); reflexivity);
      destruct (bool_decide _); reflexivity.
  - rewrite bool_decide_eq_false_2 by (intros N; by apply N). reflexivity.
Qed.

(** C3: the constructor throws when it is handed a client and the container
    resolves the client key to another object; it passes the check when the
    two are the same object or when at most one of them exists. *)
Theorem C3_conflicting_client (s : State) (options : option PrismaOptions) :
  _ensureNoConflictingPrismaProvidedAndBound None s = (Normal tt, s) /\
  forall (c : nat) (bound : option Value),
    fst (app_getSync_optional PRISMA_CLIENT_INSTANCE s) = Normal bound ->
    (forall v, bound = Some v -> v <> VNull -> v <> VClient c ->
       _ensureNoConflictingPrismaProvidedAndBound (Some c) s =
         (Throw (JsError conflict_message), s) /\
       fst (constructor (Some c) options s) =
         Throw (JsError conflict_message)) /\
    (bound = Some (VClient c) \/ bound = Some VNull \/ bound = None ->
       _ensureNoConflictingPrismaProvidedAndBound (Some c) s =
         (Normal tt, s) /\
       fst (constructor (Some c) options s) <>
         Throw (JsError conflict_message)).
Proof.
  split; [reflexivity|]. intros c bound Hb. split.
  - intros v -> Hnull Hne.
    assert (Hthrow : forall s0,
      fst (app_getSync_optional PRISMA_CLIENT_INSTANCE s0) = Normal (Some v) ->
      _ensureNoConflictingPrismaProvidedAndBound (Some c) s0 =
        (Throw (JsError conflict_message), s0)).
    { intros s0 Hg. rewrite (ensureNoConflicting_run _ _ _ Hg).
      rewrite bool_decide_eq_true_2 by congruence.
      destruct v; congruence. }
    split; [by apply Hthrow|].
    unfold constructor. rewrite (bind_step _ _ _ _ _ (modify_run _ _)).
    rewrite bind_run, Hthrow; [reflexivity|].
    rewrite <- Hb. by apply getSync_optional_result.
  - intros Hcase.
    assert (Hpass : forall s0,
      fst (app_getSync_optional PRISMA_CLIENT_INSTANCE s0) = Normal bound ->
      _ensureNoConflictingPrismaProvidedAndBound (Some c) s0 = (Normal tt, s0)).
    { intros s0 Hg. rewrite (ensureNoConflicting_run _ _ _ Hg).
      destruct Hcase as [-> | [-> | ->]]; try reflexivity.
      rewrite bool_decide_eq_false_2 by (intros N; by apply N). reflexivity. }
    split; [by apply Hpass|].
    unfold constructor. rewrite (bind_step _ _ _ _ _ (modify_run _ _)).
    match goal with
    | |- context [_ensureNoConflictingPrismaProvidedAndBound _ ≫= _] =>
        match goal with
        | |- fst (_ ?s0) <> _ =>
            rewrite (bind_step _ _ _ _ _ (Hpass s0
              (eq_trans (getSync_optional_result _ s s0 eq_refl eq_refl) Hb)))
        end
    end.
    match goal with
    | |- fst (?m ?s0) <> _ =>
        assert (Hrest : throws_only (fun e => e <> JsError conflict_message) m)
          by (unfold_ops; throws discriminate)
    end.
    match goal with
    | |- fst ?run <> _ => destruct run as [[[]|e] s1] eqn:Erun
    end; cbn; [discriminate|].
    intros [= ->]. by apply (Hrest _ _ _ Erun).
Qed.

(** ** Construction: the effective options *)

(** C9, amended: without an options argument the effective options are the
    defaults; with one, the members the caller set are kept, [namespace] and
    [tags] are filled in when the caller gave a [models] record, and nothing
    else is: an unset [lazyConnect] stays unset and an absent [models] stays
    absent. *)
Theorem C9_effective_options (s s' : State) (supplied : option nat)
    (options : option PrismaOptions) :
  constructor supplied options s = (Normal tt, s') ->
  let effective := _options (this s') in
  (options = None -> effective = DEFAULT_PRISMA_OPTIONS) /\
  (forall o, options = Some o ->
     prismaClient effective = prismaClient o /\
     lazyConnect effective = lazyConnect o /\
     (default false (lazyConnect effective) =
        default false (lazyConnect (merge_over_defaults o))) /\
     (models o = None -> models effective = None) /\
     (forall m, models o = Some m ->
        models effective =
          Some (mkModels
                  (Some (default PRISMA_MODEL_NAMESPACE (namespace m)))
                  (Some (default [PRISMA_MODEL_TAG] (tags m)))))).
Proof.
  intros Hrun effective. unfold constructor in Hrun.
  rewrite (bind_step _ _ _ _ _ (modify_run _ _)) in Hrun.
  apply bind_Normal in Hrun as (? & s2 & H2 & Hrun). framed this H2.
  rewrite (bind_step _ _ _ _ _ (modify_run _ _)) in Hrun.
  apply bind_Normal in Hrun as (backlog & s4 & H4 & Hrun). framed this H4.
  apply bind_Normal in Hrun as (? & s5 & H5 & Hrun). framed this H5.
  apply bind_Normal in Hrun as (? & s6 & H6 & Hrun). framed this H6.
  apply bind_Normal in Hrun as (found & s7 & H7 & Hrun). framed this H7.
  apply bind_Normal in Hrun as (ob & s8 & H8 & Hrun). framed this H8.
  unfold upd_this in Hrun.
  rewrite !(bind_step _ _ _ _ _ (modify_run _ _)) in Hrun.
  framed this Hrun.
  assert (Heff : effective = augment_defaults (default DEFAULT_PRISMA_OPTIONS options)).
  { unfold effective, same in *. cbn in *. rewrite F5. cbn. rewrite F4, F3, F2, F1, F0, F. reflexivity. }
  clear - Heff. rewrite Heff. split.
  - intros ->. reflexivity.
  - intros o ->. change (default DEFAULT_PRISMA_OPTIONS (Some o)) with o.
    unfold augment_defaults.
    assert (Hlazy : default false (lazyConnect o) =
                    default false (lazyConnect (merge_over_defaults o))).
    { cbn. by destruct (lazyConnect o). }
    destruct (models o) as [m|] eqn:Em; cbn [prismaClient lazyConnect models].
    + split_and!; try done.
      intros m' [= <-]. by destruct (namespace m), (tags m).
    + split_and!; done.
Qed.

(** ** [start] *)

Lemma start_when_initialized s :
  _isInitialized (this s) = true ->
  start s =
  if default false (lazyConnect (_options (this s))) then (Normal tt, s)
  else (c ← the_client; client_connect c) s.
Proof.
  intros E. unfold start, isInitialized. run_pure. rewrite E. cbn [negb].
  run_pure.
  destruct (default false (lazyConnect (_options (this s)))); reflexivity.
Qed.

(** C5: on an initialized component [start()] returns at once, with nothing
    done, when [lazyConnect] is true; otherwise it calls [$connect()] of the
    client and settles as that call does.  On a component that is not
    initialized it runs [init()] first. *)
Theorem C5_start (s : State) :
  (_isInitialized (this s) = true ->
     (lazyConnect (_options (this s)) = Some true ->
        start s = (Normal tt, s)) /\
     (lazyConnect (_options (this s)) <> Some true ->
        forall c cl, _prismaClient (this s) = Some c ->
          clients s !! c = Some cl ->
          start s = client_connect c s /\
          trace (snd (start s)) = trace s ++ [EConnect c] /\
          fst (start s) =
            match connectFails cl with
            | None => Normal tt
            | Some msg => Throw (ConnectError msg)
            end)) /\
  (_isInitialized (this s) = false ->
     (forall s1, init s = (Normal tt, s1) ->
        _isInitialized (this s1) = true /\ start s = start s1) /\
     (forall e s1, init s = (Throw e, s1) -> start s = (Throw e, s1))).
Proof.
  split.
  - intros Hi. rewrite (start_when_initialized _ Hi). split.
    + intros ->. reflexivity.
    + intros Hl c cl Hc Hcl.
      assert (default false (lazyConnect (_options (this s))) = false) as ->.
      { destruct (lazyConnect (_options (this s))) as [[]|]; cbn; congruence. }
      assert ((c0 ← the_client; client_connect c0) s = client_connect c s) as ->.
      { by rewrite (bind_step _ _ _ _ _ (the_client_run _ _ Hc)). }
      rewrite (client_connect_run _ _ _ Hcl). auto.
  - intros Hi. split.
    + intros s1 Hrun. pose proof (init_sets_initialized _ _ Hrun) as Hi1.
      split; [exact Hi1|].
      rewrite (start_when_initialized _ Hi1).
      unfold start, isInitialized. run_pure. rewrite Hi. cbn [negb].
      rewrite (bind_step _ _ _ _ _ Hrun). run_pure.
      destruct (default false (lazyConnect (_options (this s1)))); reflexivity.
    + intros e s1 Hrun. unfold start, isInitialized. run_pure.
      rewrite Hi. cbn [negb]. rewrite (bind_throw _ _ _ _ _ Hrun). reflexivity.
Qed.

(** ** The listener of [init] *)

Lemma use_on_bind_rejects s r b :
  heap s !! r = Some b ->
  type b <> Some CONSTANT \/ scope b <> SINGLETON ->
  use_on_bind r s = (Throw (JsError middleware_message), s).
Proof.
  intros Hb Hbad. unfold use_on_bind.
  rewrite (bind_step _ _ _ _ _ (deref_run _ _ _ Hb)).
  destruct Hbad as [Hty | Hsc].
  - rewrite (bool_decide_eq_true_2 _ Hty). reflexivity.
  - rewrite (bool_decide_eq_true_2 _ Hsc), orb_true_r. reflexivity.
Qed.

(** ** [stop] *)

(** Before any [init()], [stop()] does nothing; afterwards it is
    [$disconnect()] of the client. *)
Lemma stop_run s :
  (_isInitialized (this s) = false -> stop s = (Normal tt, s)) /\
  (_isInitialized (this s) = true ->
     forall c, _prismaClient (this s) = Some c ->
       stop s = client_disconnect c s).
Proof.
  split; intros Hi; unfold stop, isInitialized; run_pure; rewrite Hi;
    cbn [negb]; [reflexivity|].
  intros c Hc. by rewrite (bind_step _ _ _ _ _ (the_client_run _ _ Hc)).
Qed.

(** ** Registering middleware *)


Lemma registry_get_snoc_fresh k reg r :
  registry_get k reg = None -> registry_get k (reg ++ [(k, r)]) = Some r.
Proof.
  intros E. rewrite <- (registry_set_fresh _ r _ E). apply registry_get_set_eq.
Qed.

Lemma extension_tagged k src sc l :
  extensionFilter PRISMA_MIDDLEWARE_EXTENSION_POINT
    (mkBinding k src sc
       [("extensionFor", PRISMA_MIDDLEWARE_EXTENSION_POINT)] l) = true.
Proof. unfold extensionFilter. cbn. apply String.eqb_refl. Qed.

(** The state after [bind(k)], the value, the scope and the extension tag,
    for a key that is not in use. *)
Lemma bind_middleware_run_fresh k ty v sc s :
  registry_get k (registry s) = None ->
  bind_middleware k ty v sc s =
  (Normal (length (heap s)),
   mkState
     (heap s ++
        [mkBinding k (Some (ty, v)) sc
           [("extensionFor", PRISMA_MIDDLEWARE_EXTENSION_POINT)] false])
     (registry s ++ [(k, length (heap s))]) (listeners s) (clients s) (this s)
     (trace s ++ [EAdd (length (heap s))])).
Proof.
  intros Hk. unfold bind_middleware.
  rewrite (bind_step _ _ _ _ _ (app_bind_run_fresh _ _ Hk)).
  destruct s as [h reg ls cl th tr]. norm.
  match goal with
  | |- context [update_binding _ ?f] =>
      rewrite (bind_step _ _ _ _ _
                 (update_binding_run _ f (mkState _ _ _ _ _ _) _
                    (lookup_snoc h _)))
  end.
  run_pure. norm. rewrite insert_snoc. reflexivity.
Qed.


(** The two listeners on a binding that the second rejects: the lock is
    taken, then the listener throws and nothing else happens. *)
Lemma listeners_run_invalid h reg cl th tr n b :
  h !! n = Some b ->
  type b <> Some CONSTANT \/ scope b <> SINGLETON ->
  forall ls, ls = [LockOnBind; UseOnBind] ->
  forEach (run_listener n) ls (mkState h reg ls cl th tr) =
  (Throw (JsError middleware_message),
   mkState
     (<[n := locked b]> h) reg ls
     cl th (tr ++ [ELock n])).
Proof.
  intros Hb Hbad ls ->. cbn [forEach run_listener].
  step (binding_lock_run n (mkState h reg _ cl th tr) _ Hb). norm.
  set (b' := locked b).
  assert (Hn : n < length h) by (eapply lookup_lt_Some; eauto).
  assert (Hb' : <[n := b']> h !! n = Some b') by by apply list_lookup_insert_eq.
  rewrite (bind_throw _ _ _ _ _
             (use_on_bind_rejects (mkState _ reg _ cl th _) n b' Hb' Hbad)).
  reflexivity.
Qed.


(** C7: the listener that [init] subscribes throws on a binding that is not
    a constant or not a singleton before it touches the client; a
    registration of such a binding ends with that error, the chain of every
    client as it was, and no [$use] in the trace. *)
Theorem C7_reject_before_attach (s : State) (k : string) (ty : BindingType)
    (v : Value) (sc : option BindingScope) :
  ty <> CONSTANT \/ sc <> Some SINGLETON ->
  registry_get k (registry s) = None ->
  listeners s = [LockOnBind; UseOnBind] ->
  (forall r b, heap s !! r = Some b ->
     type b <> Some CONSTANT \/ scope b <> SINGLETON ->
     use_on_bind r s = (Throw (JsError middleware_message), s)) /\
  exists s',
    register_middleware k ty v sc s =
      (Throw (JsError middleware_message), s') /\
    clients s' = clients s /\
    trace s' =
      trace s ++ [EAdd (length (heap s)); ELock (length (heap s))].
Proof.
  intros Hbad Hk Hls. split; [intros r b; apply use_on_bind_rejects|].
  unfold register_middleware.
  rewrite (bind_step _ _ _ _ _ (bind_middleware_run_fresh k ty v sc s Hk)).
  destruct s as [h reg ls cl th tr]. norm.
  set (b := mkBinding k (Some (ty, v)) sc
              [("extensionFor", PRISMA_MIDDLEWARE_EXTENSION_POINT)] false).
  unfold view_observe.
  step (deref_run (length h) (mkState (h ++ [b]) _ ls cl th _) b
          (lookup_snoc h b)).
  unfold b at 1. rewrite extension_tagged. run_pure. norm.
  rewrite (listeners_run_invalid (h ++ [b]) _ cl th _ (length h) b);
    [| apply lookup_snoc | | exact Hls].
  - eexists. split; [reflexivity|]. norm. rewrite <- app_assoc. done.
  - destruct Hbad as [Hty | Hsc]; [left | right].
    + cbn. congruence.
    + unfold scope. cbn. destruct sc as [[]|]; cbn; congruence.
Qed.

(** ** [init] on an invalid client binding *)

Lemma getSync_optional_run k s r b :
  registry_get k (registry s) = Some r -> heap s !! r = Some b ->
  app_getSync_optional k s =
  (match source b with
   | Some (_, v) => Normal (Some v)
   | None => Throw (ContextError NoValueConfigured (key b))
   end, s).
Proof.
  intros Hr Hb. unfold app_getSync_optional, app_getBinding_optional.
  run_pure. rewrite Hr. unfold binding_getValue.
  step (deref_run r s b Hb). destruct (source b) as [[ty v]|]; reflexivity.
Qed.

Lemma ensureValid_run c s r b :
  registry_get PRISMA_CLIENT_INSTANCE (registry s) = Some r ->
  heap s !! r = Some b ->
  _ensureValidPrismaClientBinding c s =
  (if bool_decide (scope b ≠ SINGLETON) then Throw PrismaClientNotSingletonError
   else if bool_decide (type b ≠ Some CONSTANT)
        then Throw (JsError not_constant_message)
        else Normal tt, s).
Proof.
  intros Hr Hb. unfold _ensureValidPrismaClientBinding, app_getBinding_optional.
  run_pure. rewrite Hr. step (deref_run r s b Hb).
  repeat destruct (bool_decide _); reflexivity.
Qed.

(** C6, amended: a component that holds a client, on a container whose
    client binding is not a singleton or not a constant: [init()] throws and
    leaves every part of the state as it was.  When the binding resolves to
    the held client, the error is [PrismaClientNotSingletonError] for a scope
    other than singleton, and the plain [Error] of a binding that is not
    constant otherwise. *)
Theorem C6_invalid_client_binding (s : State) (c r : nat) (b : Binding) :
  _isInitialized (this s) = false ->
  _prismaClient (this s) = Some c ->
  registry_get PRISMA_CLIENT_INSTANCE (registry s) = Some r ->
  heap s !! r = Some b ->
  scope b <> SINGLETON \/ type b <> Some CONSTANT ->
  exists e, init s = (Throw e, s) /\
    forall ty, source b = Some (ty, VClient c) ->
      (scope b <> SINGLETON -> e = PrismaClientNotSingletonError) /\
      (scope b = SINGLETON -> e = JsError not_constant_message).
Proof.
  intros Hi Hc Hr Hb Hbad.
  unfold init, isInitialized. run_pure. rewrite Hi. unfold resolve_client.
  run_pure. rewrite Hc.
  pose proof (getSync_optional_run _ _ _ _ Hr Hb) as Hget.
  destruct (source b) as [[ty v]|] eqn:Esrc.
  - assert (Hbound : fst (app_getSync_optional PRISMA_CLIENT_INSTANCE s)
                     = Normal (Some v)) by by rewrite Hget.
    pose proof (ensureNoConflicting_run c s _ Hbound) as Hcheck.
    pose proof (ensureValid_run c s r b Hr Hb) as Hvalid.
    assert (Hthrows : exists e,
      _ensureValidPrismaClientBinding c s = (Throw e, s) /\
      (scope b <> SINGLETON -> e = PrismaClientNotSingletonError) /\
      (scope b = SINGLETON -> e = JsError not_constant_message)).
    { rewrite Hvalid. destruct (decide (scope b = SINGLETON)) as [Hs|Hs].
      - rewrite bool_decide_eq_false_2 by (intros N; by apply N).
        destruct Hbad as [?|Hty]; [done|].
        rewrite (bool_decide_eq_true_2 _ Hty). eexists. split_and!; done.
      - rewrite (bool_decide_eq_true_2 _ Hs). eexists. split_and!; done. }
    destruct Hthrows as (e & He & He1 & He2).
    destruct (decide (v = VClient c)) as [->|Hv].
    + rewrite bool_decide_eq_false_2 in Hcheck by (intros N; by apply N).
      step Hcheck. rewrite (bind_throw _ _ _ _ _ He).
      exists e. split; [reflexivity|]. intros ty' _. auto.
    + destruct (decide (v = VNull)) as [->|Hn].
      * step Hcheck. rewrite (bind_throw _ _ _ _ _ He).
        exists e. split; [reflexivity|]. intros ty' [=].
      * assert (Hconf : _ensureNoConflictingPrismaProvidedAndBound (Some c) s
                        = (Throw (JsError conflict_message), s)).
        { rewrite Hcheck. rewrite bool_decide_eq_true_2 by congruence.
          by destruct v. }
        rewrite ?bind_assoc, (bind_throw _ _ _ _ _ Hconf).
        eexists. split; [reflexivity|]. intros ty' [= _ ->]. done.
  - assert (Hconf : _ensureNoConflictingPrismaProvidedAndBound (Some c) s
                    = (Throw (ContextError NoValueConfigured (key b)), s)).
    { unfold _ensureNoConflictingPrismaProvidedAndBound.
      by rewrite (bind_throw _ _ _ _ _ Hget). }
    rewrite ?bind_assoc, (bind_throw _ _ _ _ _ Hconf).
    eexists. split; [reflexivity|]. intros ty' [=].
Qed.

(** ** The model bindings *)

Lemma append_inj_r (a b c : string) : a +:+ b = a +:+ c -> b = c.
Proof. induction a as [|x a IH]; cbn; [done|]. intros [= E]. auto. Qed.

Lemma model_key_inj n n' : model_key n = model_key n' -> n = n'.
Proof.
  unfold model_key. intros E. apply append_inj_r in E.
  by apply append_inj_r in E.
Qed.


Lemma createBinding_run v n s :
  createBindingFromPrismaModelName v n s =
  (Normal (length (heap s)),
   set_heap (heap s ++
     [mkBinding (model_key n) (Some (CONSTANT, v)) None
                [(PRISMA_MODEL_TAG, PRISMA_MODEL_TAG)] false]) s).
Proof.
  unfold createBindingFromPrismaModelName.
  step (new_Binding_run (PRISMA_MODEL_NAMESPACE +:+ "." +:+ n) s).
  destruct s as [h reg ls cl th tr]. norm.
  unfold binding_to, binding_tag.
  match goal with
  | |- context [update_binding _ ?f ≫= _] =>
      step (update_binding_run (length h) f (mkState _ reg ls cl th tr) _
              (lookup_snoc h _))
  end.
  norm. rewrite insert_snoc.
  match goal with
  | |- context [update_binding _ ?f ≫= _] =>
      step (update_binding_run (length h) f (mkState _ reg ls cl th tr) _
              (lookup_snoc h _))
  end.
  norm. rewrite insert_snoc. reflexivity.
Qed.

(** One turn of the loop, when it succeeds: one locked binding more in the
    heap, registered under the key of the model, and the key was not held by
    a locked binding. *)
Lemma bind_model_Normal n s s' c :
  _prismaClient (this s) = Some c ->
  bind_model n s = (Normal tt, s') ->
  s' = mkState (heap s ++ [model_binding c n])
         (registry_set (model_key n) (length (heap s)) (registry s))
         (listeners s) (clients s) (this s)
         (trace s ++ [ELock (length (heap s)); EAdd (length (heap s))]) /\
  (forall r b, registry_get (model_key n) (registry s) = Some r ->
     heap s !! r = Some b -> isLocked b = false).
Proof.
  intros Hc. unfold bind_model.
  step (the_client_run s c Hc).
  step (createBinding_run (VProperty c (toLowerCase n)) n s).
  destruct s as [h reg ls cl th tr]. norm.
  match goal with
  | |- context [mkState (h ++ [?b0])] =>
      step (binding_lock_run (length h) (mkState (h ++ [b0]) reg ls cl th tr)
              b0 (lookup_snoc h b0))
  end.
  norm. rewrite insert_snoc. intros Hadd.
  apply app_add_Normal in Hadd as (b & Hb & Hfree & ->). norm.
  rewrite lookup_snoc in Hb. injection Hb as <-. cbn [key locked] in *.
  split.
  - rewrite <- app_assoc. reflexivity.
  - intros r b Hr Hb. apply (Hfree r b Hr). by apply lookup_snoc_Some.
Qed.

(** The loop over any list of names. *)
Lemma bind_models_loop names : forall s s' c,
  _prismaClient (this s) = Some c ->
  forEach bind_model names s = (Normal tt, s') ->
  this s' = this s /\ clients s' = clients s /\ listeners s' = listeners s /\
  (exists ext, heap s' = heap s ++ ext) /\
  (forall k, (forall n, n ∈ names -> k <> model_key n) ->
     registry_get k (registry s') = registry_get k (registry s)) /\
  (forall k r b, registry_get k (registry s) = Some r ->
     heap s !! r = Some b -> isLocked b = true ->
     registry_get k (registry s') = Some r) /\
  (forall n, n ∈ names ->
     exists r, registry_get (model_key n) (registry s') = Some r /\
               heap s' !! r = Some (model_binding c n)).
Proof.
  induction names as [|n names IH]; intros s s' c Hc; cbn [forEach].
  - intros [= <-]. split_and!; try done.
    + exists []. by rewrite app_nil_r.
    + intros n Hn. by apply elem_of_nil in Hn.
  - intros Hrun. apply bind_Normal in Hrun as ([] & s1 & H1 & Hrun).
    apply (bind_model_Normal _ _ _ _ Hc) in H1 as [-> Hfree].
    apply (IH _ _ c) in Hrun; [|exact Hc]. norm.
    destruct Hrun as (Hth & Hcl & Hls & [ext Hext] & Hother & Hkeep & Hall).
    split_and!; try done.
    + exists (model_binding c n :: ext). rewrite Hext, <- app_assoc. done.
    + intros k Hk. rewrite Hother.
      * apply registry_get_set_ne. intros E. apply (Hk n); [left|done].
      * intros n' Hn'. apply Hk. by right.
    + intros k r b Hr Hb Hlocked. apply (Hkeep k r b); [| |done].
      * rewrite registry_get_set_ne; [done|].
        intros <-. specialize (Hfree r b Hr Hb). congruence.
      * by apply lookup_snoc_Some.
    + intros n' Hn'. apply elem_of_cons in Hn' as [-> | Hn']; [|by apply Hall].
      exists (length (heap s)). split.
      * apply (Hkeep _ _ (model_binding c n)); [| |done].
        -- apply registry_get_set_eq.
        -- apply lookup_snoc.
      * rewrite Hext. apply lookup_app_l_Some, lookup_snoc.
Qed.

(** ** The steps of [init] *)

Lemma alter_insert {A} (f : A -> A) (l : list A) (i : nat) (x : A) :
  l !! i = Some x -> <[i := f x]> l = alter f i l.
Proof.
  intros E. apply list_eq. intros j. destruct (decide (i = j)) as [<-|N].
  - rewrite list_lookup_alter_eq, E.
    apply list_lookup_insert_eq. by eapply lookup_lt_Some.
  - by rewrite list_lookup_insert_ne, list_lookup_alter_ne.
Qed.


Lemma bind_client_Normal c s s1 :
  (r ← app_bind PRISMA_CLIENT_INSTANCE;
   binding_to r (VClient c);; binding_inScope r SINGLETON) s
    = (Normal tt, s1) ->
  s1 = mkState (heap s ++ [client_binding c])
         (registry_set PRISMA_CLIENT_INSTANCE (length (heap s)) (registry s))
         (listeners s) (clients s) (this s)
         (trace s ++ [EAdd (length (heap s))]) /\
  (forall r b, registry_get PRISMA_CLIENT_INSTANCE (registry s) = Some r ->
     heap s !! r = Some b -> isLocked b = false).
Proof.
  unfold app_bind. rewrite ?bind_assoc.
  rewrite (bind_step _ _ _ _ _ (new_Binding_run _ _)).
  destruct s as [h reg ls cl th tr]. norm. rewrite ?bind_assoc.
  intros Hrun. apply bind_Normal in Hrun as ([] & s2 & Hadd & Hrun).
  apply app_add_Normal in Hadd as (b & Hb & Hfree & ->). norm.
  rewrite lookup_snoc in Hb. injection Hb as <-. cbn [key] in *.
  run_pure_in Hrun. unfold binding_to, binding_inScope in Hrun.
  match type of Hrun with
  | context [update_binding _ ?f ≫= _] =>
      rewrite (bind_step _ _ _ _ _
        (update_binding_run (length h) f (mkState _ _ ls cl th _) _
           (lookup_snoc h _))) in Hrun
  end.
  norm. rewrite insert_snoc in Hrun.
  match type of Hrun with
  | context [update_binding _ ?f] =>
      rewrite (update_binding_run (length h) f (mkState _ _ ls cl th _) _
                 (lookup_snoc h _)) in Hrun
  end.
  norm. rewrite insert_snoc in Hrun. injection Hrun as <-.
  split; [reflexivity|].
  intros r b Hr Hb. apply (Hfree r b Hr). by apply lookup_snoc_Some.
Qed.

Lemma middlewares_of_snoc c s cl new :
  clients s !! c = Some cl ->
  from_option middlewares [] ((clients s ++ [new]) !! c) = middlewares cl.
Proof. intros E. by rewrite (lookup_snoc_Some _ _ _ _ E). Qed.

(** What a successful [resolve_client] leaves: a client in the field of the
    component, and either the container as it was, with a valid binding of
    the client, or one new binding registered under the client key. *)
Lemma resolve_client_Normal s s1 :
  resolve_client s = (Normal tt, s1) ->
  exists c,
    _prismaClient (this s1) = Some c /\
    _optionsBinding (this s1) = _optionsBinding (this s) /\
    _isInitialized (this s1) = _isInitialized (this s) /\
    listeners s1 = listeners s /\
    middlewares_of c s1 = middlewares_of c s /\
    ((heap s1 = heap s /\ registry s1 = registry s) \/
     (heap s1 = heap s ++ [client_binding c] /\
      registry s1 =
        registry_set PRISMA_CLIENT_INSTANCE (length (heap s)) (registry s) /\
      forall r b, registry_get PRISMA_CLIENT_INSTANCE (registry s) = Some r ->
        heap s !! r = Some b -> isLocked b = false)).
Proof.
  unfold resolve_client. run_pure. intros Hrun.
  apply bind_Normal in Hrun as ([] & s0 & Hcheck & Hrun).
  framed (@id State) Hcheck. unfold same, id in F. subst s0.
  destruct (_prismaClient (this s)) as [c|] eqn:Hc.
  - exists c. unfold _ensureValidPrismaClientBinding in Hrun.
    unfold app_getBinding_optional in Hrun. run_pure_in Hrun.
    destruct (registry_get PRISMA_CLIENT_INSTANCE (registry s)) as [r|] eqn:Hr.
    + framed (@id State) Hrun. unfold same, id in F. subst s1.
      split_and!; try done. by left.
    + apply bind_client_Normal in Hrun as [-> Hfree]. norm.
      split_and!; try done. right. split_and!; done.
  - apply bind_Normal in Hrun as (v & s0 & Hget & Hrun).
    framed (@id State) Hget. unfold same, id in F. subst s0.
    destruct v as [|o| | | |]; try discriminate Hrun.
    unfold upd_this, new_PrismaClient, emit in Hrun. run_pure_in Hrun.
    apply bind_client_Normal in Hrun as [-> Hfree].
    destruct s as [h reg ls cl th tr]. norm.
    exists (length cl). split_and!; try done.
    + unfold middlewares_of. norm. rewrite lookup_snoc. cbn.
      by rewrite (lookup_ge_None_2 cl (length cl)).
    + right. split_and!; done.
Qed.

(** A successful [lock_bindings] locks the binding object that the component
    holds for its options and the binding registered under the client key,
    and nothing else changes but the trace. *)
Lemma lock_bindings_Normal s s2 :
  lock_bindings s = (Normal tt, s2) ->
  exists rc ob,
    registry_get PRISMA_CLIENT_INSTANCE (registry s) = Some rc /\
    _optionsBinding (this s) = Some ob /\
    is_Some (heap s !! ob) /\ is_Some (heap s !! rc) /\
    s2 = mkState (alter locked rc (alter locked ob (heap s))) (registry s)
           (listeners s) (clients s) (this s)
           (trace s ++ [ELock ob; ELock rc]).
Proof.
  unfold lock_bindings, app_getBinding, app_getBinding_optional. run_pure.
  destruct (registry_get PRISMA_CLIENT_INSTANCE (registry s)) as [rc|];
    [|discriminate].
  run_pure. destruct (_optionsBinding (this s)) as [ob|]; [|discriminate].
  intros Hrun. exists rc, ob.
  apply bind_Normal in Hrun as ([] & s1 & Hob & Hrc).
  destruct (heap s !! ob) as [b|] eqn:Hb.
  2: { unfold binding_lock, update_binding, deref in Hob.
       rewrite ?bind_assoc, bind_run, Hb in Hob. discriminate. }
  rewrite (binding_lock_run _ _ _ Hb) in Hob. injection Hob as <-.
  destruct s as [h reg ls cl th tr]. norm. rewrite (alter_insert _ _ _ _ Hb) in Hrc.
  destruct (alter locked ob h !! rc) as [b'|] eqn:Hb'.
  2: { unfold binding_lock, update_binding, deref in Hrc.
       rewrite ?bind_assoc, bind_run in Hrc. norm. rewrite Hb' in Hrc.
       discriminate. }
  rewrite (binding_lock_run rc (mkState _ reg ls cl th _) _ Hb') in Hrc.
  injection Hrc as <-. norm. rewrite (alter_insert _ _ _ _ Hb').
  rewrite <- app_assoc. split_and!; try done.
  apply lookup_lt_Some in Hb'. rewrite length_alter in Hb'.
  by apply lookup_lt_is_Some.
Qed.

(** ** The middleware view *)


Lemma getValue_Normal r s v s' :
  binding_getValue r s = (Normal v, s') ->
  s' = s /\ resolves_to (heap s) r v.
Proof.
  unfold binding_getValue. intros Hrun.
  apply bind_Normal in Hrun as (b & s1 & Hd & Hrun).
  apply deref_Normal in Hd as [-> Hb].
  destruct (source b) as [[ty v']|] eqn:E; [|discriminate].
  injection Hrun as <- <-. split; [done|]. by exists b, ty.
Qed.

Lemma getValue_run r s v :
  resolves_to (heap s) r v -> binding_getValue r s = (Normal v, s).
Proof.
  intros (b & ty & Hb & E). unfold binding_getValue.
  step (deref_run r s b Hb). by rewrite E.
Qed.

Lemma values_Normal refs : forall s vs s',
  mapM binding_getValue refs s = (Normal vs, s') ->
  s' = s /\ Forall2 (resolves_to (heap s)) refs vs.
Proof.
  induction refs as [|r refs IH]; intros s vs s'; cbn [mapM].
  - intros [= <- <-]. split; [done|constructor].
  - intros Hrun. apply bind_Normal in Hrun as (v & s1 & Hv & Hrun).
    apply getValue_Normal in Hv as [-> Hv].
    apply bind_Normal in Hrun as (vs' & s2 & Hvs & Hrun).
    apply IH in Hvs as [-> Hvs]. injection Hrun as <- <-.
    split; [done|by constructor].
Qed.


Lemma view_values_Normal s vs s' :
  view_values s = (Normal vs, s') ->
  s' = s /\ Forall2 (resolves_to (heap s)) (view_refs s) vs.
Proof.
  unfold view_values, view_bindings. run_pure. apply values_Normal.
Qed.



#[local] Instance view_stable_preorder : PreOrder view_stable.
Proof.
  split.
  - intros s. by split_and!.
  - intros s1 s2 s3 (Ha & Hb & Hc) (Ha' & Hb' & Hc'). split_and!.
    + intros r. by rewrite Ha', Ha.
    + intros r v Hv. by apply Hb', Hb.
    + by rewrite Hc', Hc.
Qed.









(** ** Attaching the backlog *)

Lemma attach_Normal m s s' c :
  _prismaClient (this s) = Some c ->
  attach m s = (Normal tt, s') ->
  exists cl, clients s !! c = Some cl /\
    s' = mkState (heap s) (registry s) (listeners s)
           (<[c := mkClient (clientOptions cl) (middlewares cl ++ [m])
                            (connectFails cl)]> (clients s))
           (this s) (trace s ++ [EUse c m]).
Proof.
  intros Hc. unfold attach. step (the_client_run s c Hc).
  destruct (clients s !! c) as [cl|] eqn:Hcl.
  - rewrite (client_use_run c m s cl Hcl). intros [= <-]. by exists cl.
  - unfold client_use, client_of. rewrite bind_run, Hcl. discriminate.
Qed.

Lemma attach_all vs : forall s s' c,
  _prismaClient (this s) = Some c ->
  forEach attach vs s = (Normal tt, s') ->
  heap s' = heap s /\ registry s' = registry s /\ this s' = this s /\
  listeners s' = listeners s /\
  middlewares_of c s' = middlewares_of c s ++ vs /\
  trace s' = trace s ++ (EUse c <$> vs).
Proof.
  induction vs as [|m vs IH]; intros s s' c Hc; cbn [forEach].
  - intros [= <-]. by rewrite !app_nil_r.
  - intros Hrun. apply bind_Normal in Hrun as ([] & s1 & H1 & Hrun).
    apply (attach_Normal _ _ _ _ Hc) in H1 as (cl & Hcl & ->).
    apply (IH _ _ c) in Hrun; [|exact Hc]. norm.
    destruct Hrun as (-> & -> & -> & -> & Hm & ->). split_and!; try done.
    + rewrite Hm. unfold middlewares_of. norm.
      rewrite list_lookup_insert_eq by by eapply lookup_lt_Some.
      rewrite Hcl. cbn. by rewrite <- app_assoc.
    + cbn. by rewrite <- app_assoc.
Qed.

Lemma attach_middleware_Normal s s3 c :
  _prismaClient (this s) = Some c ->
  attach_middleware s = (Normal tt, s3) ->
  exists vs, view_values s = (Normal vs, s) /\
    heap s3 = heap s /\ registry s3 = registry s /\ this s3 = this s /\
    listeners s3 = listeners s ++ [UseOnBind] /\
    middlewares_of c s3 = middlewares_of c s ++ vs /\
    trace s3 = trace s ++ (EUse c <$> vs).
Proof.
  intros Hc. unfold attach_middleware. intros Hrun.
  apply bind_Normal in Hrun as (vs & s1 & Hvs & Hrun).
  pose proof (view_values_Normal _ _ _ Hvs) as [-> _].
  apply bind_Normal in Hrun as ([] & s2 & Hall & Hrun).
  apply (attach_all _ _ _ c Hc) in Hall as (Hh & Hr & Ht & Hl & Hm & Htr).
  unfold view_on_bind in Hrun. injection Hrun as <-. norm.
  exists vs. rewrite Hl. split_and!; try done.
Qed.

(** ** [init], step by step *)

Lemma init_Normal s s' :
  _isInitialized (this s) = false ->
  init s = (Normal tt, s') ->
  exists s1 s2 s3 s4,
    resolve_client s = (Normal tt, s1) /\
    lock_bindings s1 = (Normal tt, s2) /\
    attach_middleware s2 = (Normal tt, s3) /\
    bind_models s3 = (Normal tt, s4) /\
    s' = set_this (mkComponent (_optionsBinding (this s4)) true
                     (_prismaClient (this s4)) (_options (this s4))) s4.
Proof.
  intros Hi. unfold init, isInitialized. run_pure. rewrite Hi. intros Hrun.
  apply bind_Normal in Hrun as ([] & s1 & H1 & Hrun).
  apply bind_Normal in Hrun as ([] & s2 & H2 & Hrun).
  apply bind_Normal in Hrun as ([] & s3 & H3 & Hrun).
  apply bind_Normal in Hrun as ([] & s4 & H4 & Hrun).
  injection Hrun as <-. by exists s1, s2, s3, s4.
Qed.


Lemma is_locked_alter_eq h r : is_Some (h !! r) -> is_locked (alter locked r h) r.
Proof.
  intros [b Hb]. exists (locked b). by rewrite list_lookup_alter_eq, Hb.
Qed.

Lemma is_locked_alter h x r : is_locked h r -> is_locked (alter locked x h) r.
Proof.
  intros (b & Hb & Hl). destruct (decide (x = r)) as [->|N].
  - apply is_locked_alter_eq. by exists b.
  - exists b. by rewrite list_lookup_alter_ne.
Qed.

Lemma is_locked_app h ext r : is_locked h r -> is_locked (h ++ ext) r.
Proof. intros (b & Hb & Hl). exists b. by rewrite (lookup_app_l_Some _ _ _ _ Hb). Qed.

(** Everything the later theorems need from a successful first [init]. *)
Lemma init_effects s s' :
  _isInitialized (this s) = false ->
  init s = (Normal tt, s') ->
  exists c rc ob s2 vs,
    _prismaClient (this s') = Some c /\
    _optionsBinding (this s') = Some ob /\
    _optionsBinding (this s) = Some ob /\
    (* the container after the first two steps *)
    (resolve_client;; lock_bindings) s = (Normal tt, s2) /\
    registry_get PRISMA_CLIENT_INSTANCE (registry s2) = Some rc /\
    is_locked (heap s2) rc /\ is_locked (heap s2) ob /\
    (forall k, k <> PRISMA_CLIENT_INSTANCE ->
       registry_get k (registry s2) = registry_get k (registry s)) /\
    middlewares_of c s2 = middlewares_of c s /\
    (* the backlog *)
    view_values s2 = (Normal vs, s2) /\
    middlewares_of c s' = middlewares_of c s2 ++ vs /\
    listeners s' = listeners s ++ [UseOnBind] /\
    (* the models *)
    (exists ext, heap s' = heap s2 ++ ext) /\
    (forall k, (forall n, n ∈ ModelName -> k <> model_key n) ->
       registry_get k (registry s') = registry_get k (registry s2)) /\
    (forall k r b, registry_get k (registry s2) = Some r ->
       heap s2 !! r = Some b -> isLocked b = true ->
       registry_get k (registry s') = Some r) /\
    (forall n, n ∈ ModelName ->
       exists r, registry_get (model_key n) (registry s') = Some r /\
                 heap s' !! r = Some (model_binding c n)).
Proof.
  intros Hi Hrun.
  apply (init_Normal _ _ Hi) in Hrun as (s1 & s2 & s3 & s4 & H1 & H2 & H3 & H4 & ->).
  pose proof (resolve_client_Normal _ _ H1)
    as (c & Hc1 & Hob1 & _ & Hls1 & Hmw1 & Hcont).
  pose proof (lock_bindings_Normal _ _ H2)
    as (rc & ob & Hrc & Hob & [bob Hbob] & [brc Hbrc] & Es2).
  assert (Hc2 : _prismaClient (this s2) = Some c) by by subst s2.
  pose proof (attach_middleware_Normal _ _ c Hc2 H3)
    as (vs & Hvs & Hh3 & Hr3 & Ht3 & Hl3 & Hm3 & _).
  assert (Hc3 : _prismaClient (this s3) = Some c) by by rewrite Ht3.
  pose proof (bind_models_loop _ _ _ c Hc3 H4)
    as (Ht4 & Hcl4 & Hl4 & [ext Hext] & Hother & Hkeep & Hall).
  exists c, rc, ob, s2, vs. norm.
  assert (Hreg2 : registry s2 = registry s1) by by subst s2.
  assert (Hheap2 : heap s2 = alter locked rc (alter locked ob (heap s1)))
    by by subst s2.
  split_and!.
  - by rewrite Ht4.
  - rewrite Ht4, Ht3. subst s2. by norm.
  - by rewrite <- Hob1.
  - by rewrite (bind_step _ _ _ _ _ H1).
  - by rewrite Hreg2.
  - rewrite Hheap2. apply is_locked_alter_eq.
    apply lookup_lt_is_Some. rewrite length_alter. by eapply lookup_lt_Some.
  - rewrite Hheap2. apply is_locked_alter, is_locked_alter_eq. by eexists.
  - intros k Hk. rewrite Hreg2.
    destruct Hcont as [[_ ->] | (_ & -> & _)]; [done|].
    by apply registry_get_set_ne.
  - rewrite <- Hmw1. unfold middlewares_of. by subst s2.
  - done.
  - unfold middlewares_of. by rewrite Hcl4.
  - by rewrite Hl4, Hl3, <- Hls1; subst s2.
  - exists ext. by rewrite Hext, Hh3.
  - intros k Hk. by rewrite (Hother k Hk), Hr3.
  - intros k r b Hr Hb Hl. apply (Hkeep k r b); [by rewrite Hr3|by rewrite Hh3|done].
  - done.
Qed.

(** ** The model bindings after [init] *)

(** After a successful [init()], every name of [Prisma.ModelName] has a
    binding registered under the model namespace joined with the name: a
    constant whose value is the property of the client named by the
    lower-cased model name, carrying the model tag, and locked. *)
Lemma init_binds_models (s s' : State) :
  _isInitialized (this s) = false ->
  init s = (Normal tt, s') ->
  exists c, _prismaClient (this s') = Some c /\
    forall modelName, modelName ∈ ModelName ->
      exists r,
        registry_get (PRISMA_MODEL_NAMESPACE +:+ "." +:+ modelName)
                     (registry s') = Some r /\
        heap s' !! r =
          Some (mkBinding (PRISMA_MODEL_NAMESPACE +:+ "." +:+ modelName)
                  (Some (CONSTANT, VProperty c (toLowerCase modelName)))
                  None [(PRISMA_MODEL_TAG, PRISMA_MODEL_TAG)] true).
Proof.
  intros Hi Hrun.
  destruct (init_effects _ _ Hi Hrun)
    as (c & rc & ob & s2 & vs & Hc & _ & _ & _ & _ & _ & _ & _ & _ & _ & _ & _
        & _ & _ & _ & Hall).
  exists c. split; [exact Hc|]. exact Hall.
Qed.

(** The lower-cased model name is the name of the accessor when the model
    name has no upper-case letter after its first character. *)
Lemma toLowerCase_accessor_name (a : ascii) (r : string) :
  toLowerCase r = r -> toLowerCase (String a r) = accessor_name (String a r).
Proof. intros E. cbn. by rewrite E. Qed.

(** Otherwise it is not: the two names differ at the first upper-case
    letter of the rest. *)
Lemma toLowerCase_not_accessor_name (a : ascii) (r : string) :
  toLowerCase r <> r -> toLowerCase (String a r) <> accessor_name (String a r).
Proof. intros N E. cbn in E. apply N. by injection E. Qed.

(** For every model whose name has an upper-case letter after its first
    character, the value that [init()] binds is not the property of the
    client that is the accessor of the model. *)
Lemma init_misses_accessor (s s' : State) (a : ascii) (r : string) :
  _isInitialized (this s) = false ->
  init s = (Normal tt, s') ->
  String a r ∈ ModelName ->
  toLowerCase r <> r ->
  exists c ref b,
    _prismaClient (this s') = Some c /\
    registry_get (PRISMA_MODEL_NAMESPACE +:+ "." +:+ String a r) (registry s')
      = Some ref /\
    heap s' !! ref = Some b /\
    source b <> Some (CONSTANT, VProperty c (accessor_name (String a r))).
Proof.
  intros Hi Hrun Hn Hup.
  destruct (init_binds_models _ _ Hi Hrun) as (c & Hc & Hall).
  destruct (Hall _ Hn) as (ref & Href & Hb).
  eexists c, ref, _. split_and!; [exact Hc | exact Href | exact Hb |].
  cbn [source toLowerCase accessor_name]. intros [= E]. by apply Hup.
Qed.

(** C10: whatever the options of the component and the configuration bound
    in the container say about namespace and tags, the model bindings of a
    successful [init()] are registered under the constant namespace with the
    constant tag, and no key outside the client key and those model keys is
    bound, rebound or unbound by [init()]. *)
Theorem C10_models_ignore_options (s s' : State) :
  _isInitialized (this s) = false ->
  init s = (Normal tt, s') ->
  (forall modelName, modelName ∈ ModelName ->
     exists r b,
       registry_get (PRISMA_MODEL_NAMESPACE +:+ "." +:+ modelName)
                    (registry s') = Some r /\
       heap s' !! r = Some b /\
       key b = PRISMA_MODEL_NAMESPACE +:+ "." +:+ modelName /\
       tagMap b = [(PRISMA_MODEL_TAG, PRISMA_MODEL_TAG)]) /\
  (forall k, k <> PRISMA_CLIENT_INSTANCE ->
     (forall modelName, modelName ∈ ModelName ->
        k <> PRISMA_MODEL_NAMESPACE +:+ "." +:+ modelName) ->
     registry_get k (registry s') = registry_get k (registry s)).
Proof.
  intros Hi Hrun.
  destruct (init_effects _ _ Hi Hrun)
    as (c & rc & ob & s2 & vs & _ & _ & _ & _ & _ & _ & _ & Hreg2 & _ & _ & _
        & _ & _ & Hother & _ & Hall).
  split.
  - intros n Hn. destruct (Hall n Hn) as (r & Hr & Hb).
    exists r, (model_binding c n). by split_and!.
  - intros k Hk Hmodels. rewrite (Hother k Hmodels). by apply Hreg2.
Qed.

(** ** The locks after [init] *)

(** The container refuses to rebind a key whose registered binding is
    locked. *)
Lemma app_bind_locked k s r :
  registry_get k (registry s) = Some r -> is_locked (heap s) r ->
  fst (app_bind k s) = Throw (ContextError RebindLocked k).
Proof.
  intros Hr (b & Hb & Hl). unfold app_bind.
  step (new_Binding_run k s).
  unfold app_add, app_getBinding_optional.
  destruct s as [h reg ls cl th tr]. norm.
  step (deref_run (length h) (mkState (h ++ [_]) reg ls cl th tr) _
          (lookup_snoc h _)).
  run_pure. norm. cbn [key]. rewrite Hr.
  step (deref_run r (mkState (h ++ [_]) reg ls cl th tr) b
          (lookup_snoc_Some h _ b r Hb)).
  rewrite Hl. run_pure. rewrite bind_run. reflexivity.
Qed.

(** After a successful [init()] the binding registered under the client key
    is locked and the container refuses to rebind that key; the binding
    object that the component holds for its options is locked too. *)
Lemma init_locks (s s' : State) :
  _isInitialized (this s) = false ->
  init s = (Normal tt, s') ->
  (exists rc, registry_get PRISMA_CLIENT_INSTANCE (registry s') = Some rc /\
              is_locked (heap s') rc) /\
  (exists ob, _optionsBinding (this s') = Some ob /\ is_locked (heap s') ob) /\
  fst (app_bind PRISMA_CLIENT_INSTANCE s') =
    Throw (ContextError RebindLocked PRISMA_CLIENT_INSTANCE).
Proof.
  intros Hi Hrun.
  destruct (init_effects _ _ Hi Hrun)
    as (c & rc & ob & s2 & vs & _ & Hob & _ & _ & Hrc & Hlrc & Hlob & _ & _ & _
        & _ & _ & [ext Hext] & _ & Hkeep & _).
  assert (Hrc' : registry_get PRISMA_CLIENT_INSTANCE (registry s') = Some rc).
  { destruct Hlrc as (b & Hb & Hl). by apply (Hkeep _ _ b). }
  assert (Hlrc' : is_locked (heap s') rc) by (rewrite Hext; by apply is_locked_app).
  split_and!.
  - by exists rc.
  - exists ob. split; [done|]. rewrite Hext. by apply is_locked_app.
  - by apply (app_bind_locked _ _ rc).
Qed.

(** ** The order of middleware *)






(** ** Construction followed by [init] *)

#[local] Instance keeps_sources_preorder : PreOrder keeps_sources.
Proof.
  split.
  - intros s r b Hb. by exists b.
  - intros s1 s2 s3 H12 H23 r b Hb.
    destruct (H12 r b Hb) as (b2 & Hb2 & E2).
    destruct (H23 r b2 Hb2) as (b3 & Hb3 & E3).
    exists b3. split; [done|congruence].
Qed.

Lemma binding_lock_keeps_sources r : preserves keeps_sources (binding_lock r).
Proof.
  intros s res s' Hrun. destruct (heap s !! r) as [b|] eqn:Hb.
  - rewrite (binding_lock_run _ _ _ Hb) in Hrun. injection Hrun as <- <-.
    intros r' b' Hb'. norm. destruct (decide (r = r')) as [<-|N].
    + exists (locked b). rewrite list_lookup_insert_eq by by eapply lookup_lt_Some.
      split; [done|]. rewrite Hb in Hb'. by injection Hb' as <-.
    + exists b'. by rewrite list_lookup_insert_ne.
  - unfold binding_lock, update_binding, deref in Hrun.
    rewrite ?bind_assoc, bind_run, Hb in Hrun. injection Hrun as <- <-.
    reflexivity.
Qed.

(** What a successful constructor leaves in the component and the view. *)
Lemma constructor_Normal s s1 supplied options :
  constructor supplied options s = (Normal tt, s1) ->
  listeners s1 = [LockOnBind] /\
  _isInitialized (this s1) = false /\
  _prismaClient (this s1) = supplied /\
  exists ob, _optionsBinding (this s1) = Some ob /\
    (forall r b, registry_get componentConfigBindingKey (registry s) = Some r ->
       heap s !! r = Some b -> type b <> None ->
       ob = r /\
       registry_get componentConfigBindingKey (registry s1) = Some r).
Proof.
  intros Hrun. unfold constructor in Hrun.
  rewrite (bind_step _ _ _ _ _ (modify_run _ _)) in Hrun.
  apply bind_Normal in Hrun as (? & s2 & H2 & Hrun).
  frame_of (@id State) H2 as E2. unfold same, id in E2. subst s2.
  rewrite (bind_step _ _ _ _ _ (modify_run _ _)) in Hrun.
  apply bind_Normal in Hrun as (backlog & s4 & H4 & Hrun).
  frame_of (@id State) H4 as E4. unfold same, id in E4. subst s4.
  apply bind_Normal in Hrun as (? & s5 & H5 & Hrun).
  frame_of this H5 as Ht5. frame_of listeners H5 as Hl5. frame_of registry H5 as Hr5.
  assert (Hsrc : keeps_sources s s5).
  { transitivity (set_listeners []
      (set_this (mkComponent None false supplied
                   (default DEFAULT_PRISMA_OPTIONS options)) s)).
    - intros r b Hb. by exists b.
    - refine (preserves_forEach _ _ _ _ _ _ _ H5).
      apply binding_lock_keeps_sources. }
  clear H2 H4 H5.
  unfold view_on_bind, app_getBinding_optional in Hrun. run_pure_in Hrun.
  apply bind_Normal in Hrun as (ob & s8 & H8 & Hrun).
  frame_of this H8 as Ht8. frame_of listeners H8 as Hl8.
  unfold upd_this in Hrun. run_pure_in Hrun.
  frame_of this Hrun as Ht1. frame_of listeners Hrun as Hl1.
  unfold same in *. norm.
  split_and!.
  - by rewrite Hl1, Hl8, Hl5.
  - by rewrite Ht1; cbn; rewrite Ht8, Ht5.
  - by rewrite Ht1; cbn; rewrite Ht8, Ht5.
  - exists ob. split; [by rewrite Ht1|].
    intros r b Hr Hb Hty.
    rewrite Hr5, Hr in H8. injection H8 as <- <-.
    destruct (Hsrc r b Hb) as (b' & Hb' & E).
    split; [done|].
    assert (Et : type b' = type b) by (unfold type; by rewrite E).
    unfold deref in Hrun. rewrite bind_run in Hrun. norm.
    rewrite Hb', Et in Hrun. destruct (type b); [|done].
    injection Hrun as <-. norm. congruence.
Qed.

(** A component made by the constructor and then initialized has the two
    listeners subscribed, the locking one first. *)
Lemma lifecycle_listeners s s1 s2 supplied options :
  constructor supplied options s = (Normal tt, s1) ->
  init s1 = (Normal tt, s2) ->
  listeners s2 = [LockOnBind; UseOnBind].
Proof.
  intros Hnew Hinit.
  destruct (constructor_Normal _ _ _ _ Hnew) as (Hls & Hi & _).
  destruct (init_effects _ _ Hi Hinit)
    as (c & rc & ob & s' & vs & _ & _ & _ & _ & _ & _ & _ & _ & _ & _ & _ & Hl
        & _).
  by rewrite Hl, Hls.
Qed.

(** When the configuration was bound with a value before the component was
    made, the binding that the component holds is the registered one:
    [init()] locks it and the container refuses to rebind the key. *)
Lemma init_locks_configured s s1 s2 supplied options r b :
  registry_get componentConfigBindingKey (registry s) = Some r ->
  heap s !! r = Some b -> type b <> None ->
  componentConfigBindingKey <> PRISMA_CLIENT_INSTANCE ->
  constructor supplied options s = (Normal tt, s1) ->
  init s1 = (Normal tt, s2) ->
  registry_get componentConfigBindingKey (registry s2) = Some r /\
  is_locked (heap s2) r /\
  fst (app_bind componentConfigBindingKey s2) =
    Throw (ContextError RebindLocked componentConfigBindingKey).
Proof.
  intros Hr Hb Hty Hne Hnew Hinit.
  destruct (constructor_Normal _ _ _ _ Hnew) as (_ & Hi & _ & ob & Hob & Hsame).
  destruct (Hsame r b Hr Hb Hty) as [-> Hr1].
  destruct (init_effects _ _ Hi Hinit)
    as (c & rc & ob' & s' & vs & _ & _ & Hob' & _ & _ & _ & Hlob & Hreg & _ & _
        & _ & _ & [ext Hext] & _ & Hkeep & _).
  rewrite Hob in Hob'. injection Hob' as <-.
  assert (Hr2 : registry_get componentConfigBindingKey (registry s2) = Some r).
  { destruct Hlob as (b' & Hb' & Hl). apply (Hkeep _ _ b'); [|done|done].
    by rewrite (Hreg _ Hne). }
  assert (Hl2 : is_locked (heap s2) r) by (rewrite Hext; by apply is_locked_app).
  split_and!; [done|done|]. by apply (app_bind_locked _ _ r).
Qed.

(** ** Further properties of the component *)

(** Frames through loops whose body is a named operation. *)
Ltac unfold_bodies := unfold bind_model, attach; unfold_ops.
Ltac frame_deep := repeat (first [frame_step | progress unfold_bodies]).

Tactic Notation "frame_in" constr(proj) hyp(H) "as" ident(F) :=
  lazymatch type of H with
  | ?m ?s = (?res, ?s') =>
      assert (F : same proj s s') by
        (refine ((_ : preserves (same proj) m) s res s' H); frame_deep)
  end.

Lemma bind_Throw {A B} (m : M A) (f : A -> M B) s e s' :
  (m ≫= f) s = (Throw e, s') ->
  m s = (Throw e, s') \/
  exists a s1, m s = (Normal a, s1) /\ f a s1 = (Throw e, s').
Proof.
  rewrite bind_run. destruct (m s) as [[a|e0] s1]; intros E.
  - right. eauto.
  - left. by injection E as <- <-.
Qed.

Lemma client_disconnect_run c s cl :
  clients s !! c = Some cl ->
  client_disconnect c s = (Normal tt, set_trace (trace s ++ [EDisconnect c]) s).
Proof.
  intros E. unfold client_disconnect, client_of, emit. rewrite bind_run, E.
  reflexivity.
Qed.

(** X1: [stop()] before any [init()] returns with nothing done; on an
    initialized component it calls [$disconnect()] of the client and touches
    nothing else. *)
Theorem X1_stop (s : State) :
  (_isInitialized (this s) = false -> stop s = (Normal tt, s)) /\
  (_isInitialized (this s) = true ->
     forall c cl, _prismaClient (this s) = Some c ->
       clients s !! c = Some cl ->
       stop s = (Normal tt, set_trace (trace s ++ [EDisconnect c]) s)).
Proof.
  destruct (stop_run s) as [Hno Hyes]. split; [exact Hno|].
  intros Hi c cl Hc Hcl. rewrite (Hyes Hi c Hc).
  by apply (client_disconnect_run c s cl).
Qed.

(** X2: the getter [isInitialized] is false after the constructor, true
    after a successful [init()], and still false after an [init()] that
    threw, at whatever step it threw. *)
Theorem X2_isInitialized (s : State) :
  (forall supplied options s1,
     constructor supplied options s = (Normal tt, s1) ->
     isInitialized s1 = (Normal false, s1)) /\
  (forall s1, init s = (Normal tt, s1) -> isInitialized s1 = (Normal true, s1)) /\
  (forall e s1, _isInitialized (this s) = false ->
     init s = (Throw e, s1) -> isInitialized s1 = (Normal false, s1)).
Proof.
  split_and!.
  - intros supplied options s1 Hrun.
    destruct (constructor_Normal _ _ _ _ Hrun) as (_ & Hi & _).
    unfold isInitialized, gets. by rewrite Hi.
  - intros s1 Hrun. unfold isInitialized, gets.
    by rewrite (init_sets_initialized _ _ Hrun).
  - intros e s1 Hi Hrun. unfold isInitialized, gets. f_equal. f_equal.
    unfold init, isInitialized in Hrun. run_pure_in Hrun. rewrite Hi in Hrun.
    rewrite <- Hi.
    set (proj := fun s : State => _isInitialized (this s)).
    change (proj s1 = proj s).
    apply bind_Throw in Hrun as [H1 | ([] & sa & H1 & Hrun)].
    { frame_in proj H1 as F. exact F. }
    frame_in proj H1 as F1.
    apply bind_Throw in Hrun as [H2 | ([] & sb & H2 & Hrun)].
    { frame_in proj H2 as F. unfold same in *. congruence. }
    frame_in proj H2 as F2.
    apply bind_Throw in Hrun as [H3 | ([] & sc & H3 & Hrun)].
    { frame_in proj H3 as F. unfold same in *. congruence. }
    frame_in proj H3 as F3.
    apply bind_Throw in Hrun as [H4 | ([] & sd & H4 & Hrun)].
    { frame_in proj H4 as F. unfold same in *. congruence. }
    discriminate Hrun.
Qed.

(** X3: after a successful first [init()] the binding registered under the
    client key is locked, the binding object that the component holds for
    its options is locked, and the container refuses to rebind the client
    key. *)
Theorem X3_client_binding_locked (s s' : State) :
  _isInitialized (this s) = false ->
  init s = (Normal tt, s') ->
  (exists rc, registry_get PRISMA_CLIENT_INSTANCE (registry s') = Some rc /\
              is_locked (heap s') rc) /\
  (exists ob, _optionsBinding (this s') = Some ob /\ is_locked (heap s') ob) /\
  fst (app_bind PRISMA_CLIENT_INSTANCE s') =
    Throw (ContextError RebindLocked PRISMA_CLIENT_INSTANCE).
Proof. apply init_locks. Qed.

(** X4: when the configuration key was bound with a value before the
    component was made, the constructor keeps that registered binding,
    [init()] locks it, and the container then refuses to rebind the
    configuration key. *)
Theorem X4_configured_options_locked (s s1 s2 : State) supplied options r b :
  registry_get componentConfigBindingKey (registry s) = Some r ->
  heap s !! r = Some b -> type b <> None ->
  componentConfigBindingKey <> PRISMA_CLIENT_INSTANCE ->
  constructor supplied options s = (Normal tt, s1) ->
  init s1 = (Normal tt, s2) ->
  registry_get componentConfigBindingKey (registry s2) = Some r /\
  is_locked (heap s2) r /\
  fst (app_bind componentConfigBindingKey s2) =
    Throw (ContextError RebindLocked componentConfigBindingKey).
Proof. apply init_locks_configured. Qed.

(** X5: a constructor that throws on conflicting clients has bound nothing,
    locked nothing and subscribed no listener: only the fields of the new
    component were written. *)
Theorem X5_conflict_leaves_container (s : State) (c : nat) (v : Value)
    (options : option PrismaOptions) :
  fst (app_getSync_optional PRISMA_CLIENT_INSTANCE s) = Normal (Some v) ->
  v <> VNull -> v <> VClient c ->
  constructor (Some c) options s =
  (Throw (JsError conflict_message),
   mkState (heap s) (registry s) (listeners s) (clients s)
     (mkComponent None false (Some c)
        (default DEFAULT_PRISMA_OPTIONS options))
     (trace s)).
Proof.
  intros Hb Hnull Hne. unfold constructor.
  rewrite (bind_step _ _ _ _ _ (modify_run _ _)).
  match goal with
  | |- (_ ≫= _) ?s0 = _ =>
      assert (Hb0 : fst (app_getSync_optional PRISMA_CLIENT_INSTANCE s0)
                    = Normal (Some v))
        by (rewrite <- Hb; by apply getSync_optional_result);
      rewrite (bind_throw _ _ s0 (JsError conflict_message) s0)
  end.
  - reflexivity.
  - rewrite (ensureNoConflicting_run _ _ _ Hb0).
    rewrite bool_decide_eq_true_2 by congruence. by destruct v.
Qed.

(** X6: filling in the defaults is idempotent, leaves the default options
    themselves as they are, never takes away a [models] record, and fills
    both of its members. *)
Theorem X6_augment_defaults (o : PrismaOptions) :
  augment_defaults (augment_defaults o) = augment_defaults o /\
  augment_defaults DEFAULT_PRISMA_OPTIONS = DEFAULT_PRISMA_OPTIONS /\
  (is_Some (models (augment_defaults o)) <-> is_Some (models o)) /\
  (forall m, models (augment_defaults o) = Some m ->
     is_Some (namespace m) /\ is_Some (tags m)).
Proof.
  unfold augment_defaults. destruct o as [pc lz [[ns tg]|]]; cbn.
  - split_and!; [by destruct ns, tg | done | done |].
    intros m [= <-]. by destruct ns, tg; cbn; split; eexists.
  - split_and!; try done. 
Qed.

(** X8: a component made by the constructor and then initialized has
    exactly two listeners on the middleware view: the locking one of the
    constructor, then the attaching one of [init()]. *)
Theorem X8_listeners (s s1 s2 : State) supplied options :
  constructor supplied options s = (Normal tt, s1) ->
  init s1 = (Normal tt, s2) ->
  listeners s1 = [LockOnBind] /\ listeners s2 = [LockOnBind; UseOnBind].
Proof.
  intros Hnew Hinit. split.
  - by destruct (constructor_Normal _ _ _ _ Hnew) as (Hls & _).
  - by eapply lifecycle_listeners.
Qed.

(** ** Invariants of every operation *)

#[local] Instance keeps_locked_preorder : PreOrder keeps_locked.
Proof.
  split.
  - intros s r Hr. exact Hr.
  - intros s1 s2 s3 H12 H23 r Hr. by apply H23, H12.
Qed.

#[local] Instance keeps_wf_preorder : PreOrder keeps_wf.
Proof.
  split.
  - intros s Hs. exact Hs.
  - intros s1 s2 s3 H12 H23 Hs. by apply H23, H12.
Qed.

Lemma update_binding_keeps_locked r f :
  (forall b, isLocked b = true -> isLocked (f b) = true) ->
  preserves keeps_locked (update_binding r f).
Proof.
  intros Hf s res s' Hrun. destruct (heap s !! r) as [b|] eqn:Hb.
  - rewrite (update_binding_run _ _ _ _ Hb) in Hrun. injection Hrun as <- <-.
    intros r' (b' & Hb' & Hl). norm. destruct (decide (r = r')) as [<-|N].
    + exists (f b). rewrite list_lookup_insert_eq by by eapply lookup_lt_Some.
      split; [done|]. apply Hf. congruence.
    + exists b'. by rewrite list_lookup_insert_ne.
  - unfold update_binding, deref in Hrun. rewrite bind_run, Hb in Hrun.
    injection Hrun as <- <-. reflexivity.
Qed.

Lemma new_Binding_keeps_locked k : preserves keeps_locked (new_Binding k).
Proof.
  intros s res s'. rewrite new_Binding_run. intros [= <- <-] r Hr.
  by apply is_locked_app.
Qed.

(** Every operation but the two that write the heap. *)
Ltac unfold_to_heap :=
  unfold register_middleware, bind_middleware, stop, start, init, bind_models,
    bind_model, attach_middleware, attach, lock_bindings, resolve_client,
    constructor, _ensureValidPrismaClientBinding,
    _ensureNoConflictingPrismaProvidedAndBound,
    createBindingFromPrismaModelName, view_observe, run_listener, use_on_bind,
    the_client, isInitialized, upd_this, view_on_bind, view_values,
    view_bindings, client_disconnect, client_connect, client_use,
    new_PrismaClient, app_get, app_getSync, app_getSync_optional, app_bind,
    app_add, app_getBinding, app_getBinding_optional, binding_getValue,
    binding_lock, binding_tag, binding_inScope, binding_to, emit.

Ltac locks_step :=
  cbv beta;
  lazymatch goal with
  | |- PreOrder _ => typeclasses eauto
  | |- forall _, _ => intros ?
  | |- preserves _ (update_binding _ _) =>
      apply update_binding_keeps_locked;
      let Hl := fresh in intros ? Hl; first [exact Hl | reflexivity]
  | |- preserves _ (new_Binding _) => apply new_Binding_keeps_locked
  | |- preserves _ (modify _) =>
      apply preserves_modify; let Hl := fresh in intros ? ? Hl; exact Hl
  | |- preserves _ (_ ≫= _) => apply preserves_bind
  | |- preserves _ (mret _) => apply preserves_ret
  | |- preserves _ (throw _) => apply preserves_throw
  | |- preserves _ (gets _) => apply preserves_gets
  | |- preserves _ (deref _) => apply preserves_deref
  | |- preserves _ (client_of _) => apply preserves_client_of
  | |- preserves _ (forEach _ _) => apply preserves_forEach
  | |- preserves _ (mapM _ _) => apply preserves_mapM
  | |- preserves _ (match ?x with _ => _ end) => destruct x
  | |- preserves _ (let _ := _ in _) => cbv zeta
  | |- preserves _ _ => progress unfold_to_heap
  end.

(** X9: no operation of the component, and no registration of middleware,
    ever unlocks a binding: whatever is locked before the constructor,
    [init()], [start()], [stop()] or a registration is locked after it,
    also when the operation throws. *)
Theorem X9_locks_are_kept :
  (forall supplied options,
     preserves keeps_locked (constructor supplied options)) /\
  preserves keeps_locked init /\
  preserves keeps_locked start /\
  preserves keeps_locked stop /\
  (forall k ty v sc, preserves keeps_locked (register_middleware k ty v sc)).
Proof. split_and!; intros; repeat locks_step. Qed.

Lemma forEach_lock_locks l : forall s s',
  forEach binding_lock l s = (Normal tt, s') ->
  forall r, r ∈ l -> is_locked (heap s') r.
Proof.
  induction l as [|x l IH]; intros s s' Hrun r Hr; cbn [forEach] in Hrun.
  - by apply elem_of_nil in Hr.
  - apply bind_Normal in Hrun as ([] & s1 & H1 & Hrun).
    apply elem_of_cons in Hr as [-> | Hr]; [|by eapply IH].
    assert (Hkeep : preserves keeps_locked (forEach binding_lock l))
      by repeat locks_step.
    apply (Hkeep _ _ _ Hrun).
    destruct (heap s !! x) as [b|] eqn:Hb.
    + rewrite (binding_lock_run _ _ _ Hb) in H1. injection H1 as <-. norm.
      exists (locked b). split; [|done].
      apply list_lookup_insert_eq. by eapply lookup_lt_Some.
    + unfold binding_lock, update_binding, deref in H1.
      rewrite ?bind_assoc, bind_run, Hb in H1. discriminate.
Qed.

(** X10: the constructor locks the backlog: every middleware binding that
    is in the view when the component is made is locked when the
    constructor returns. *)
Theorem X10_constructor_locks_backlog (s s1 : State) supplied options :
  constructor supplied options s = (Normal tt, s1) ->
  forall r, r ∈ view_refs s -> is_locked (heap s1) r.
Proof.
  intros Hrun r Hr. unfold constructor in Hrun.
  rewrite (bind_step _ _ _ _ _ (modify_run _ _)) in Hrun.
  apply bind_Normal in Hrun as (? & s2 & H2 & Hrun).
  frame_of (@id State) H2 as E2. unfold same, id in E2. subst s2.
  rewrite (bind_step _ _ _ _ _ (modify_run _ _)) in Hrun.
  unfold view_bindings in Hrun. run_pure_in Hrun. norm.
  apply bind_Normal in Hrun as ([] & s5 & H5 & Hrun).
  assert (Hrest : forall m : M unit, m s5 = (Normal tt, s1) ->
            preserves keeps_locked m -> is_locked (heap s1) r).
  { intros m Hm Hkeep. apply (Hkeep _ _ _ Hm).
    by apply (forEach_lock_locks _ _ _ H5). }
  apply (Hrest _ Hrun). repeat locks_step.
Qed.

Lemma registry_set_wf (P : nat -> Prop) k r reg :
  Forall P (snd <$> reg) -> P r -> Forall P (snd <$> registry_set k r reg).
Proof.
  intros Hreg Hr. induction reg as [|[k0 r0] reg IH]; cbn in *.
  - by constructor.
  - inversion Hreg as [|? ? Hr0 Hreg']; subst.
    destruct (String.eqb k0 k); cbn.
    + by constructor.
    + constructor; [done|by apply IH].
Qed.

Lemma app_add_keeps_wf r : preserves keeps_wf (app_add r).
Proof.
  intros s res s' Hrun Hwf. destruct (heap s !! r) as [b|] eqn:Hb.
  2: { unfold app_add, deref in Hrun. rewrite bind_run, Hb in Hrun.
       by injection Hrun as <- <-. }
  destruct res as [[]|e].
  - apply app_add_Normal in Hrun as (b' & Hb' & _ & ->).
    unfold registry_wf in *. norm. apply registry_set_wf; [done|].
    by eapply lookup_lt_Some.
  - unfold app_add, app_getBinding_optional, emit in Hrun.
    rewrite (bind_step _ _ _ _ _ (deref_run _ _ _ Hb)) in Hrun.
    run_pure_in Hrun.
    destruct (registry_get (key b) (registry s)) as [r'|].
    + rewrite ?bind_assoc in Hrun.
      apply bind_Throw in Hrun as [Hd | (b' & s1 & Hd & Hrun)].
      * frame_of (@id State) Hd as E. unfold same, id in E. by subst s'.
      * apply deref_Normal in Hd as [-> _]. destruct (isLocked b').
        -- rewrite bind_run in Hrun. by injection Hrun as <- <-.
        -- run_pure_in Hrun. discriminate.
    + run_pure_in Hrun. discriminate.
Qed.

Lemma update_binding_keeps_wf r f : preserves keeps_wf (update_binding r f).
Proof.
  intros s res s' Hrun Hwf. destruct (heap s !! r) as [b|] eqn:Hb.
  - rewrite (update_binding_run _ _ _ _ Hb) in Hrun. injection Hrun as <- <-.
    unfold registry_wf in *. norm. by rewrite length_insert.
  - unfold update_binding, deref in Hrun. rewrite bind_run, Hb in Hrun.
    by injection Hrun as <- <-.
Qed.

Lemma new_Binding_keeps_wf k : preserves keeps_wf (new_Binding k).
Proof.
  intros s res s'. rewrite new_Binding_run. intros [= <- <-] Hwf.
  unfold registry_wf in *. norm. rewrite length_app.
  eapply Forall_impl; [|exact Hwf]. cbn. intros; lia.
Qed.

(** Every operation but the three that write the heap or the registry. *)
Ltac unfold_to_store :=
  unfold register_middleware, bind_middleware, stop, start, init, bind_models,
    bind_model, attach_middleware, attach, lock_bindings, resolve_client,
    constructor, _ensureValidPrismaClientBinding,
    _ensureNoConflictingPrismaProvidedAndBound,
    createBindingFromPrismaModelName, view_observe, run_listener, use_on_bind,
    the_client, isInitialized, upd_this, view_on_bind, view_values,
    view_bindings, client_disconnect, client_connect, client_use,
    new_PrismaClient, app_get, app_getSync, app_getSync_optional, app_bind,
    app_getBinding, app_getBinding_optional, binding_getValue,
    binding_lock, binding_tag, binding_inScope, binding_to, emit.

Ltac wf_step :=
  cbv beta;
  lazymatch goal with
  | |- PreOrder _ => typeclasses eauto
  | |- forall _, _ => intros ?
  | |- preserves _ (update_binding _ _) => apply update_binding_keeps_wf
  | |- preserves _ (new_Binding _) => apply new_Binding_keeps_wf
  | |- preserves _ (app_add _) => apply app_add_keeps_wf
  | |- preserves _ (modify _) =>
      apply preserves_modify; let Hw := fresh in intros ? Hw; exact Hw
  | |- preserves _ (_ ≫= _) => apply preserves_bind
  | |- preserves _ (mret _) => apply preserves_ret
  | |- preserves _ (throw _) => apply preserves_throw
  | |- preserves _ (gets _) => apply preserves_gets
  | |- preserves _ (deref _) => apply preserves_deref
  | |- preserves _ (client_of _) => apply preserves_client_of
  | |- preserves _ (forEach _ _) => apply preserves_forEach
  | |- preserves _ (mapM _ _) => apply preserves_mapM
  | |- preserves _ (match ?x with _ => _ end) => destruct x
  | |- preserves _ (let _ := _ in _) => cbv zeta
  | |- preserves _ _ => progress unfold_to_store
  end.

(** X11: every operation keeps the registry well formed: when every
    registered reference is a binding object of the heap before the
    constructor, [init()], [start()], [stop()] or a registration, the same
    holds after it, also when the operation throws. *)
Theorem X11_registry_stays_wf :
  (forall supplied options, preserves keeps_wf (constructor supplied options)) /\
  preserves keeps_wf init /\
  preserves keeps_wf start /\
  preserves keeps_wf stop /\
  (forall k ty v sc, preserves keeps_wf (register_middleware k ty v sc)).
Proof. split_and!; intros; repeat wf_step. Qed.

(** ** More on the client and the options of [init] *)

(** [resolve_client] in full: what it leaves in the component, the client
    store and the container, by whether the component holds a client. *)
Lemma resolve_client_detail s s1 :
  resolve_client s = (Normal tt, s1) ->
  listeners s1 = listeners s /\
  match _prismaClient (this s) with
  | Some c =>
      this s1 = this s /\ clients s1 = clients s /\
      ((exists rc b v,
          registry_get PRISMA_CLIENT_INSTANCE (registry s) = Some rc /\
          heap s !! rc = Some b /\ scope b = SINGLETON /\
          source b = Some (CONSTANT, v) /\ (v = VClient c \/ v = VNull) /\
          heap s1 = heap s /\ registry s1 = registry s) \/
       (registry_get PRISMA_CLIENT_INSTANCE (registry s) = None /\
        heap s1 = heap s ++ [client_binding c] /\
        registry s1 =
          registry s ++ [(PRISMA_CLIENT_INSTANCE, length (heap s))]))
  | None =>
      exists o,
        app_get componentConfigBindingKey s = (Normal (VOptions o), s) /\
        this s1 =
          mkComponent (_optionsBinding (this s)) (_isInitialized (this s))
                      (Some (length (clients s))) o /\
        clients s1 =
          clients s ++
            [mkClient (prismaClient o) [] (connectOutcome (prismaClient o))] /\
        heap s1 = heap s ++ [client_binding (length (clients s))] /\
        registry s1 =
          registry_set PRISMA_CLIENT_INSTANCE (length (heap s)) (registry s)
  end.
Proof.
  unfold resolve_client. run_pure. intros Hrun.
  apply bind_Normal in Hrun as ([] & s0 & Hcheck & Hrun).
  frame_of (@id State) Hcheck as E0. unfold same, id in E0. subst s0.
  destruct (_prismaClient (this s)) as [c|] eqn:Hc.
  - destruct (registry_get PRISMA_CLIENT_INSTANCE (registry s)) as [rc|] eqn:Hr.
    + destruct (heap s !! rc) as [b|] eqn:Hb.
      2: { unfold _ensureValidPrismaClientBinding, app_getBinding_optional,
             deref in Hrun. run_pure_in Hrun. rewrite Hr in Hrun.
           rewrite bind_run, Hb in Hrun. discriminate. }
      rewrite (ensureValid_run c s rc b Hr Hb) in Hrun.
      destruct (decide (scope b = SINGLETON)) as [Hs|Hs].
      2: { by rewrite (bool_decide_eq_true_2 _ Hs) in Hrun. }
      rewrite bool_decide_eq_false_2 in Hrun by (intros N; by apply N).
      destruct (decide (type b = Some CONSTANT)) as [Ht|Ht].
      2: { by rewrite (bool_decide_eq_true_2 _ Ht) in Hrun. }
      rewrite bool_decide_eq_false_2 in Hrun by (intros N; by apply N).
      injection Hrun as <-.
      pose proof (getSync_optional_run _ _ _ _ Hr Hb) as Hget.
      destruct (source b) as [[ty v]|] eqn:Esrc.
      2: { unfold _ensureNoConflictingPrismaProvidedAndBound in Hcheck.
           rewrite (bind_throw _ _ _ _ _ Hget) in Hcheck. discriminate. }
      assert (ty = CONSTANT) as ->.
      { unfold type in Ht. rewrite Esrc in Ht. by injection Ht. }
      assert (Hbound : fst (app_getSync_optional PRISMA_CLIENT_INSTANCE s)
                       = Normal (Some v)) by by rewrite Hget.
      rewrite (ensureNoConflicting_run c s _ Hbound) in Hcheck.
      split_and!; try done. left. exists rc, b, v. split_and!; try done.
      destruct (decide (v = VNull)) as [->|Hn]; [by right|]. left.
      destruct (decide (VClient c = v)) as [<-|Hv]; [done|].
      rewrite (bool_decide_eq_true_2 _ Hv) in Hcheck. by destruct v.
    + unfold _ensureValidPrismaClientBinding, app_getBinding_optional in Hrun.
      run_pure_in Hrun. rewrite Hr in Hrun.
      apply bind_client_Normal in Hrun as [-> _]. norm.
      split_and!; try done. right.
      by rewrite (registry_set_fresh _ _ _ Hr).
  - apply bind_Normal in Hrun as (v & s0 & Hget & Hrun).
    frame_of (@id State) Hget as E0. unfold same, id in E0. subst s0.
    destruct v as [|o| | | |]; try discriminate Hrun.
    unfold upd_this, new_PrismaClient, emit in Hrun. run_pure_in Hrun.
    apply bind_client_Normal in Hrun as [-> _].
    destruct s as [h reg ls cl th tr]. norm.
    split; [done|]. exists o. by split_and!.
Qed.

Lemma attach_all_clients vs : forall s s' c,
  _prismaClient (this s) = Some c ->
  forEach attach vs s = (Normal tt, s') ->
  length (clients s') = length (clients s) /\
  forall c', clientOptions <$> clients s' !! c' = clientOptions <$> clients s !! c'
          /\ connectFails <$> clients s' !! c' = connectFails <$> clients s !! c'.
Proof.
  induction vs as [|m vs IH]; intros s s' c Hc; cbn [forEach].
  - by intros [= <-].
  - intros Hrun. apply bind_Normal in Hrun as ([] & s1 & H1 & Hrun).
    apply (attach_Normal _ _ _ _ Hc) in H1 as (cl & Hcl & ->).
    apply (IH _ _ c) in Hrun; [|exact Hc]. norm.
    destruct Hrun as (Hlen & Hsame). rewrite length_insert in Hlen.
    split; [done|]. intros c'. destruct (Hsame c') as [-> ->].
    destruct (decide (c = c')) as [<-|N].
    + rewrite list_lookup_insert_eq by by eapply lookup_lt_Some.
      by rewrite Hcl.
    + by rewrite list_lookup_insert_ne.
Qed.

(** The component and the clients after the four steps of [init], from
    those after the first. *)
Lemma init_after_resolve s s' :
  _isInitialized (this s) = false ->
  init s = (Normal tt, s') ->
  exists s1, resolve_client s = (Normal tt, s1) /\
    this s' = mkComponent (_optionsBinding (this s1)) true
                (_prismaClient (this s1)) (_options (this s1)) /\
    length (clients s') = length (clients s1) /\
    forall c', clientOptions <$> clients s' !! c' = clientOptions <$> clients s1 !! c'
            /\ connectFails <$> clients s' !! c' = connectFails <$> clients s1 !! c'.
Proof.
  intros Hi Hrun.
  apply (init_Normal _ _ Hi) in Hrun
    as (s1 & s2 & s3 & s4 & H1 & H2 & H3 & H4 & ->).
  exists s1. split; [done|].
  pose proof (resolve_client_Normal _ _ H1) as (c & Hc1 & _).
  pose proof (lock_bindings_Normal _ _ H2) as (rc & ob & _ & _ & _ & _ & E2).
  assert (Ht2 : this s2 = this s1) by by subst s2.
  assert (Hcl2 : clients s2 = clients s1) by by subst s2.
  assert (Hc2 : _prismaClient (this s2) = Some c) by by rewrite Ht2.
  unfold attach_middleware in H3.
  apply bind_Normal in H3 as (vs & s2' & Hvs & H3).
  pose proof (view_values_Normal _ _ _ Hvs) as [-> _].
  apply bind_Normal in H3 as ([] & s2'' & Hall & H3).
  pose proof (attach_all _ _ _ c Hc2 Hall) as (_ & _ & Ht3 & _).
  pose proof (attach_all_clients _ _ _ c Hc2 Hall) as (Hlen & Hsame).
  unfold view_on_bind in H3. injection H3 as <-.
  assert (Hc3 : _prismaClient
                  (this (set_listeners (listeners s2'' ++ [UseOnBind]) s2''))
                = Some c) by (norm; by rewrite Ht3).
  pose proof (bind_models_loop _ _ _ c Hc3 H4) as (Ht4 & Hcl4 & _).
  norm. rewrite Ht4, Ht3, Ht2, Hcl4, Hlen, Hcl2. split_and!; try done.
  intros c'. destruct (Hsame c') as [-> ->]. by rewrite Hcl2.
Qed.

(** X12: where the options of an initialized component come from.  A
    component that was handed a client keeps the options of its constructor
    and makes no client.  A component without one takes the options bound
    under the configuration key at the time of [init()], and makes exactly
    one client, from the [prismaClient] member of those options. *)
Theorem X12_options_of_init (s s' : State) :
  _isInitialized (this s) = false ->
  init s = (Normal tt, s') ->
  (forall c, _prismaClient (this s) = Some c ->
     _prismaClient (this s') = Some c /\
     _options (this s') = _options (this s) /\
     length (clients s') = length (clients s)) /\
  (_prismaClient (this s) = None ->
     exists o,
       fst (app_get componentConfigBindingKey s) = Normal (VOptions o) /\
       _options (this s') = o /\
       _prismaClient (this s') = Some (length (clients s)) /\
       length (clients s') = S (length (clients s)) /\
       clientOptions <$> clients s' !! length (clients s) =
         Some (prismaClient o) /\
       connectFails <$> clients s' !! length (clients s) =
         Some (connectOutcome (prismaClient o))).
Proof.
  intros Hi Hrun.
  destruct (init_after_resolve _ _ Hi Hrun) as (s1 & H1 & Ht & Hlen & Hsame).
  destruct (resolve_client_detail _ _ H1) as [_ Hdetail].
  split.
  - intros c Hc. rewrite Hc in Hdetail. destruct Hdetail as (Ht1 & Hcl1 & _).
    rewrite Ht, Hlen, Ht1, Hcl1. by rewrite Hc.
  - intros Hc. rewrite Hc in Hdetail.
    destruct Hdetail as (o & Hget & Ht1 & Hcl1 & _).
    exists o. rewrite Ht, Ht1, Hlen, Hcl1, Hget. cbn.
    destruct (Hsame (length (clients s))) as [-> ->].
    rewrite Hcl1, length_app, lookup_snoc. cbn. split_and!; try done. lia.
Qed.

Lemma lookup_alter_locked (h : list Binding) (x r : nat) (b : Binding) :
  h !! r = Some b ->
  exists b', alter locked x h !! r = Some b' /\
    source b' = source b /\ _scope b' = _scope b /\ key b' = key b /\
    tagMap b' = tagMap b.
Proof.
  intros Hb. destruct (decide (x = r)) as [->|N].
  - exists (locked b). by rewrite list_lookup_alter_eq, Hb.
  - exists b. by rewrite list_lookup_alter_ne.
Qed.

(** X13: after a successful first [init()] the client key is registered
    with a locked singleton constant.  Its value is the client of the
    component, except when the application had bound the key to [null]
    beforehand: the check lets [null] pass and [init()] keeps that
    binding. *)
Theorem X13_client_binding_after_init (s s' : State) :
  _isInitialized (this s) = false ->
  init s = (Normal tt, s') ->
  exists c rc b,
    _prismaClient (this s') = Some c /\
    registry_get PRISMA_CLIENT_INSTANCE (registry s') = Some rc /\
    heap s' !! rc = Some b /\
    isLocked b = true /\ scope b = SINGLETON /\
    (source b = Some (CONSTANT, VClient c) \/
     source b = Some (CONSTANT, VNull) /\
     fst (app_getSync_optional PRISMA_CLIENT_INSTANCE s) = Normal (Some VNull)).
Proof.
  intros Hi Hrun.
  destruct (init_effects _ _ Hi Hrun)
    as (c & rc & ob & s2 & vs & Hc & _ & _ & H12 & Hrc & Hlrc & _ & _ & _ & _
        & _ & _ & [ext Hext] & _ & Hkeep & _).
  apply bind_Normal in H12 as ([] & s1 & H1 & H2).
  pose proof (resolve_client_Normal _ _ H1) as (c1 & Hc1 & _).
  pose proof (lock_bindings_Normal _ _ H2) as (rc2 & ob2 & Hrc2 & _ & _ & _ & E2).
  assert (Hc2 : _prismaClient (this s2) = Some c1) by by subst s2.
  assert (Hreg2 : registry s2 = registry s1) by by subst s2.
  assert (Hheap2 : heap s2 = alter locked rc2 (alter locked ob2 (heap s1)))
    by by subst s2.
  assert (c1 = c) as ->.
  { apply (init_Normal _ _ Hi) in Hrun
      as (t1 & t2 & t3 & t4 & G1 & G2 & G3 & G4 & ->).
    rewrite H1 in G1. injection G1 as <-. rewrite H2 in G2. injection G2 as <-.
    frame_in this G3 as F3.
    pose proof (bind_models_loop _ _ _ c1
                  (eq_trans (f_equal _prismaClient F3) Hc2) G4) as (F4 & _).
    norm. rewrite F4, F3, Hc2 in Hc. by injection Hc. }
  (* the binding after [resolve_client] *)
  assert (Hb1 : exists b1, heap s1 !! rc = Some b1 /\ scope b1 = SINGLETON /\
            (source b1 = Some (CONSTANT, VClient c) \/
             source b1 = Some (CONSTANT, VNull) /\
             fst (app_getSync_optional PRISMA_CLIENT_INSTANCE s)
               = Normal (Some VNull))).
  { rewrite Hreg2 in Hrc.
    destruct (resolve_client_detail _ _ H1) as [_ Hdetail].
    destruct (_prismaClient (this s)) as [c0|] eqn:Hc0.
    - destruct Hdetail as (Ht1 & _ & [(rc0 & b & v & Hr0 & Hb & Hs & Hsrc & Hv & Hh & Hr)
                                     | (Hr0 & Hh & Hr)]).
      + rewrite Hr, Hr0 in Hrc. injection Hrc as ->. rewrite Hh.
        exists b. split_and!; try done.
        assert (c0 = c) as -> by (rewrite Ht1, Hc0 in Hc1; by injection Hc1).
        destruct Hv as [-> | ->]; [by left|right]. split; [done|].
        rewrite (getSync_optional_run _ _ _ _ Hr0 Hb). by rewrite Hsrc.
      + rewrite Hr, (registry_get_snoc_fresh _ _ _ Hr0) in Hrc.
        injection Hrc as <-. rewrite Hh, lookup_snoc.
        assert (c0 = c) as -> by (rewrite Ht1, Hc0 in Hc1; by injection Hc1).
        exists (client_binding c). split_and!; try done. by left.
    - destruct Hdetail as (o & _ & Ht1 & _ & Hh & Hr).
      rewrite Hr, registry_get_set_eq in Hrc. injection Hrc as <-.
      rewrite Hh, lookup_snoc. rewrite Ht1 in Hc1. cbn in Hc1.
      injection Hc1 as <-.
      exists (client_binding (length (clients s))). split_and!; try done.
      by left. }
  destruct Hb1 as (b1 & Hb1 & Hs1 & Hsrc1).
  destruct (lookup_alter_locked _ ob2 _ _ Hb1) as (ba & Hba & Ea & Esa & _).
  destruct (lookup_alter_locked _ rc2 _ _ Hba) as (bb & Hbb & Eb & Esb & _).
  rewrite <- Hheap2 in Hbb.
  destruct Hlrc as (bl & Hbl & Hl). rewrite Hbb in Hbl. injection Hbl as <-.
  exists c, rc, bb. split_and!; try done.
  - by apply (Hkeep _ _ bb).
  - rewrite Hext. by apply lookup_app_l_Some.
  - unfold scope in *. by rewrite Esb, Esa.
  - rewrite Eb, Ea. done.
Qed.

Lemma app_add_Throw r s e s' : app_add r s = (Throw e, s') -> s' = s.
Proof.
  intros Hrun. destruct (heap s !! r) as [b|] eqn:Hb.
  2: { unfold app_add, deref in Hrun. rewrite bind_run, Hb in Hrun.
       by injection Hrun as <- <-. }
  unfold app_add, app_getBinding_optional, emit in Hrun.
  rewrite (bind_step _ _ _ _ _ (deref_run _ _ _ Hb)) in Hrun.
  run_pure_in Hrun.
  destruct (registry_get (key b) (registry s)) as [r'|].
  - rewrite ?bind_assoc in Hrun.
    apply bind_Throw in Hrun as [Hd | (b' & s1 & Hd & Hrun)].
    + frame_of (@id State) Hd as E. unfold same, id in E. by subst s'.
    + apply deref_Normal in Hd as [-> _]. destruct (isLocked b').
      * rewrite bind_run in Hrun. by injection Hrun as <- <-.
      * run_pure_in Hrun. discriminate.
  - run_pure_in Hrun. discriminate.
Qed.

(** A refused [bind(k)] leaves one unregistered binding object behind and
    nothing else. *)
Lemma app_bind_locked_run k s r :
  registry_get k (registry s) = Some r -> is_locked (heap s) r ->
  app_bind k s =
  (Throw (ContextError RebindLocked k),
   set_heap (heap s ++ [mkBinding k None None [] false]) s).
Proof.
  intros Hr Hl. pose proof (app_bind_locked k s r Hr Hl) as Hfst.
  unfold app_bind in *. rewrite (bind_step _ _ _ _ _ (new_Binding_run _ _)) in *.
  cbv beta in *.
  set (s0 := set_heap (heap s ++ [mkBinding k None None [] false]) s) in *.
  destruct (app_add (length (heap s)) s0) as [[[]|e] s1] eqn:Eadd.
  - rewrite (bind_step _ _ _ _ _ Eadd) in Hfst. run_pure_in Hfst. discriminate.
  - rewrite (bind_throw _ _ _ _ _ Eadd) in *. cbn in Hfst.
    injection Hfst as ->. by rewrite (app_add_Throw _ _ _ _ Eadd).
Qed.

(** X14: a component that holds no client cannot be initialized on a
    container whose client key is held by a locked binding (as it is after
    the [init()] of an earlier component): [init()] throws at the rebind,
    after it has made a client of its own, which the component keeps in
    [_prismaClient]; the component stays uninitialized and nothing is bound
    or subscribed. *)
Theorem X14_locked_client_key (s : State) (o : PrismaOptions) (rc : nat) :
  _isInitialized (this s) = false ->
  _prismaClient (this s) = None ->
  fst (app_get componentConfigBindingKey s) = Normal (VOptions o) ->
  registry_get PRISMA_CLIENT_INSTANCE (registry s) = Some rc ->
  is_locked (heap s) rc ->
  exists s',
    init s = (Throw (ContextError RebindLocked PRISMA_CLIENT_INSTANCE), s') /\
    _isInitialized (this s') = false /\
    _prismaClient (this s') = Some (length (clients s)) /\
    registry s' = registry s /\ listeners s' = listeners s /\
    clients s' =
      clients s ++
        [mkClient (prismaClient o) [] (connectOutcome (prismaClient o))] /\
    trace s' = trace s ++ [ENewClient (length (clients s))].
Proof.
  intros Hi Hc Hget Hrc Hl.
  assert (Hget' : app_get componentConfigBindingKey s = (Normal (VOptions o), s)).
  { destruct (app_get componentConfigBindingKey s) as [res s0] eqn:E.
    frame_of (@id State) E as F. unfold same, id in F. cbn in Hget. congruence. }
  unfold init, isInitialized. run_pure. rewrite Hi.
  unfold resolve_client. run_pure. rewrite Hc.
  unfold _ensureNoConflictingPrismaProvidedAndBound. run_pure.
  step Hget'. unfold upd_this, new_PrismaClient, emit. run_pure.
  destruct s as [h reg ls cl th tr]. norm.
  rewrite ?bind_assoc.
  rewrite (bind_throw _ _ _ _ _
             (app_bind_locked_run PRISMA_CLIENT_INSTANCE
                (mkState h reg ls _ _ _) rc Hrc Hl)).
  eexists. split; [reflexivity|]. norm. by split_and!.
Qed.

Lemma values_Throw refs s :
  (forall r, r ∈ refs -> is_Some (heap s !! r)) ->
  (exists r b, r ∈ refs /\ heap s !! r = Some b /\ source b = None) ->
  exists k, mapM binding_getValue refs s
            = (Throw (ContextError NoValueConfigured k), s).
Proof.
  induction refs as [|r0 refs IH]; intros Hall (r & b & Hr & Hb & Hsrc).
  - by apply elem_of_nil in Hr.
  - cbn [mapM]. destruct (Hall r0) as [b0 Hb0]; [by left|].
    destruct (source b0) as [[ty v]|] eqn:E0.
    + assert (Hv : resolves_to (heap s) r0 v) by by exists b0, ty.
      step (getValue_run r0 s v Hv).
      destruct IH as [k Hk].
      * intros r' Hr'. apply Hall. by right.
      * apply elem_of_cons in Hr as [-> | Hr]; [congruence|]. by exists r, b.
      * exists k. by rewrite (bind_throw _ _ _ _ _ Hk).
    + exists (key b0). unfold binding_getValue.
      step (deref_run r0 s b0 Hb0). rewrite E0. run_pure.
      by rewrite bind_run.
Qed.

Lemma attach_middleware_valueless (s : State) :
  (exists r b, r ∈ view_refs s /\ heap s !! r = Some b /\ source b = None) ->
  exists k,
    attach_middleware s = (Throw (ContextError NoValueConfigured k), s).
Proof.
  intros Hbad.
  destruct (values_Throw (view_refs s) s) as [k Hk]; [|exact Hbad|].
  - intros r Hr. unfold view_refs in Hr.
    apply list_elem_of_In, filter_In in Hr as [_ Hin].
    unfold in_view in Hin. destruct (heap s !! r); [by eexists|done].
  - exists k. unfold attach_middleware, view_values, view_bindings. run_pure.
    by rewrite (bind_throw _ _ _ _ _ Hk).
Qed.

(** X15: the backlog is attached all or nothing: when one middleware
    binding of the view was never given a value, the first [init()] throws
    where it resolves the view, before the first [$use]: it ends in the
    state that the client and the locks of its first two steps left, with no
    middleware attached, no listener subscribed and no model bound. *)
Theorem X15_backlog_all_or_nothing (s s2 : State) :
  _isInitialized (this s) = false ->
  (resolve_client;; lock_bindings) s = (Normal tt, s2) ->
  (exists r b, r ∈ view_refs s2 /\ heap s2 !! r = Some b /\ source b = None) ->
  exists k,
    init s = (Throw (ContextError NoValueConfigured k), s2) /\
    _isInitialized (this s2) = false /\
    listeners s2 = listeners s /\
    forall c, middlewares_of c s2 = middlewares_of c s.
Proof.
  intros Hi H12 Hbad.
  destruct (attach_middleware_valueless s2 Hbad) as [k Hk]. exists k.
  apply bind_Normal in H12 as ([] & s1 & H1 & H2).
  split_and!.
  - unfold init, isInitialized. run_pure. rewrite Hi.
    rewrite (bind_step _ _ _ _ _ H1), (bind_step _ _ _ _ _ H2).
    by rewrite (bind_throw _ _ _ _ _ Hk).
  - set (proj := fun s : State => _isInitialized (this s)).
    frame_in proj H1 as F1. frame_in proj H2 as F2. unfold same, proj in *.
    congruence.
  - frame_in listeners H1 as F1. frame_in listeners H2 as F2.
    unfold same in *. congruence.
  - intros c. destruct (resolve_client_Normal _ _ H1) as (c1 & _ & _ & _ & _ & _ & _).
    destruct (lock_bindings_Normal _ _ H2) as (rc & ob & _ & _ & _ & _ & ->).
    unfold middlewares_of. cbn [clients].
    destruct (resolve_client_detail _ _ H1) as [_ Hd].
    destruct (_prismaClient (this s)) as [c0|].
    + by destruct Hd as (_ & -> & _).
    + destruct Hd as (o & _ & _ & -> & _).
      destruct (decide (c < length (clients s))) as [Hlt|Hge].
      * by rewrite lookup_app_l.
      * rewrite (lookup_ge_None_2 (clients s)) by lia.
        destruct (decide (c = length (clients s))) as [->|N].
        -- by rewrite lookup_snoc.
        -- rewrite lookup_ge_None_2; [done|]. rewrite length_app. cbn. lia.
Qed.

(** X16: [init()] never unbinds a key, and never replaces a locked
    binding: after a successful first [init()] every key that was bound is
    still bound, and a key whose registered binding was locked is bound to
    the same binding object, still locked. *)
Theorem X16_init_keeps_bindings (s s' : State) :
  _isInitialized (this s) = false ->
  init s = (Normal tt, s') ->
  (forall k, is_Some (registry_get k (registry s)) ->
     is_Some (registry_get k (registry s'))) /\
  (forall k r, registry_get k (registry s) = Some r -> is_locked (heap s) r ->
     registry_get k (registry s') = Some r /\ is_locked (heap s') r).
Proof.
  intros Hi Hrun.
  destruct (init_effects _ _ Hi Hrun)
    as (c & rc & ob & s2 & vs & _ & _ & _ & H12 & Hrc & _ & _ & Hreg2 & _ & _
        & _ & _ & [ext Hext] & Hother & Hkeep & Hall).
  assert (Hlocks : keeps_locked s s2).
  { assert (Hm : preserves keeps_locked (resolve_client;; lock_bindings))
      by repeat locks_step.
    exact (Hm _ _ _ H12). }
  apply bind_Normal in H12 as ([] & s1 & H1 & H2).
  pose proof (resolve_client_Normal _ _ H1)
    as (c1 & _ & _ & _ & _ & _ & Hcont).
  pose proof (lock_bindings_Normal _ _ H2) as (rc2 & ob2 & _ & _ & _ & _ & E2).
  assert (Hr21 : registry s2 = registry s1) by by subst s2.
  split.
  - intros k Hk.
    destruct (decide (k ∈ model_key <$> ModelName)) as [Hin|Hnin].
    + apply list_elem_of_fmap in Hin as (n & -> & Hn).
      destruct (Hall n Hn) as (r & Hr & _). by eexists.
    + rewrite Hother.
      * destruct (decide (k = PRISMA_CLIENT_INSTANCE)) as [->|N];
          [by eexists | by rewrite (Hreg2 _ N)].
      * intros n Hn ->. apply Hnin, list_elem_of_fmap. by exists n.
  - intros k r Hr Hl.
    assert (Hr2 : registry_get k (registry s2) = Some r).
    { rewrite Hr21. destruct Hcont as [[_ ->] | (_ & -> & Hfree)]; [done|].
      rewrite registry_get_set_ne; [done|]. intros <-.
      destruct Hl as (b & Hb & Hlb). specialize (Hfree r b Hr Hb). congruence. }
    pose proof (Hlocks r Hl) as Hl2.
    split.
    + destruct Hl2 as (b2 & Hb2 & Hlb2). by apply (Hkeep _ _ b2).
    + rewrite Hext. by apply is_locked_app.
Qed.

(** X17: [start()] on an initialized component writes nothing but the
    trace: no binding, no registration, no listener, no client and no field
    of the component changes, whether [$connect()] resolves or rejects; the
    trace grows by at most the one [$connect()]. *)
Theorem X17_start_touches_nothing (s s' : State) (res : Completion unit) :
  _isInitialized (this s) = true ->
  start s = (res, s') ->
  heap s' = heap s /\ registry s' = registry s /\
  listeners s' = listeners s /\ clients s' = clients s /\ this s' = this s /\
  (trace s' = trace s \/ exists c, trace s' = trace s ++ [EConnect c]).
Proof.
  intros Hi. rewrite (start_when_initialized _ Hi).
  destruct (default false (lazyConnect (_options (this s)))).
  { intros [= <- <-]. split_and!; try done. by left. }
  intros Hrun.
  frame_of heap Hrun as Fh. frame_of registry Hrun as Fr.
  frame_of listeners Hrun as Fl. frame_of clients Hrun as Fc.
  frame_of this Hrun as Ft. split_and!; try done.
  destruct (_prismaClient (this s)) as [c|] eqn:Hc.
  - rewrite (bind_step _ _ _ _ _ (the_client_run _ _ Hc)) in Hrun.
    destruct (clients s !! c) as [cl|] eqn:Hcl.
    + rewrite (client_connect_run _ _ _ Hcl) in Hrun. injection Hrun as <- <-.
      right. by exists c.
    + unfold client_connect, client_of in Hrun. rewrite bind_run, Hcl in Hrun.
      injection Hrun as <- <-. by left.
  - unfold the_client in Hrun. run_pure_in Hrun. rewrite Hc in Hrun.
    rewrite bind_run in Hrun. injection Hrun as <- <-. by left.
Qed.

(** ** The options binding of a component used standalone *)

Lemma app_bind_run_unlocked k s r b :
  registry_get k (registry s) = Some r -> heap s !! r = Some b ->
  isLocked b = false ->
  app_bind k s =
  (Normal (length (heap s)),
   set_trace (trace s ++ [EAdd (length (heap s))])
     (set_registry (registry_set k (length (heap s)) (registry s))
        (set_heap (heap s ++ [mkBinding k None None [] false]) s))).
Proof.
  intros Hr Hb Hl. unfold app_bind.
  step (new_Binding_run k s).
  unfold app_add, app_getBinding_optional, emit.
  destruct s as [h reg ls cl th tr]. norm.
  step (deref_run (length h) (mkState (h ++ [_]) reg ls cl th tr) _
          (lookup_snoc h _)).
  run_pure. norm. cbn [key]. rewrite Hr.
  step (deref_run r (mkState (h ++ [_]) reg ls cl th tr) b
          (lookup_snoc_Some h _ b r Hb)).
  rewrite Hl. run_pure. reflexivity.
Qed.

Lemma binding_lock_keeps_length r :
  preserves (same (fun s => length (heap s))) (binding_lock r).
Proof.
  intros s res s' Hrun. unfold same. destruct (heap s !! r) as [b|] eqn:Hb.
  - rewrite (binding_lock_run _ _ _ Hb) in Hrun. injection Hrun as <- <-.
    norm. by rewrite length_insert.
  - unfold binding_lock, update_binding, deref in Hrun.
    rewrite ?bind_assoc, bind_run, Hb in Hrun. by injection Hrun as <- <-.
Qed.

(** The constructor on a container with nothing bound under the
    configuration key: two binding objects are made for the key, the
    component keeps the first and the container registers the second. *)
Lemma constructor_unconfigured s s1 supplied options :
  registry_get componentConfigBindingKey (registry s) = None ->
  constructor supplied options s = (Normal tt, s1) ->
  let n := length (heap s) in
  _optionsBinding (this s1) = Some n /\
  _isInitialized (this s1) = false /\
  _options (this s1) =
    augment_defaults (default DEFAULT_PRISMA_OPTIONS options) /\
  registry s1 = registry s ++ [(componentConfigBindingKey, S n)] /\
  length (heap s1) = S (S n) /\
  heap s1 !! n = Some (mkBinding componentConfigBindingKey None None [] false) /\
  heap s1 !! S n =
    Some (mkBinding componentConfigBindingKey
            (Some (CONSTANT, VOptions (_options (this s1)))) None [] false).
Proof.
  intros Hk Hrun n. unfold constructor in Hrun.
  rewrite (bind_step _ _ _ _ _ (modify_run _ _)) in Hrun.
  apply bind_Normal in Hrun as (? & s2 & H2 & Hrun).
  frame_of (@id State) H2 as E2. unfold same, id in E2. subst s2.
  rewrite (bind_step _ _ _ _ _ (modify_run _ _)) in Hrun.
  apply bind_Normal in Hrun as (backlog & s4 & H4 & Hrun).
  frame_of (@id State) H4 as E4. unfold same, id in E4. subst s4.
  apply bind_Normal in Hrun as (? & s5 & H5 & Hrun).
  frame_of this H5 as Ht5. frame_of registry H5 as Hr5.
  assert (Hlen : same (fun s => length (heap s)) _ _)
    by exact (preserves_forEach _ _ _ binding_lock_keeps_length _ _ _ H5).
  clear H2 H4 H5. unfold same in *. norm.
  unfold view_on_bind, app_getBinding_optional in Hrun. run_pure_in Hrun.
  norm. rewrite Hr5, Hk in Hrun.
  destruct s5 as [h5 reg5 ls5 cl5 th5 tr5]. norm. subst reg5 th5.
  rewrite (bind_step _ _ _ _ _
             (app_bind_run_fresh componentConfigBindingKey
                (mkState h5 (registry s) _ cl5 _ tr5) Hk)) in Hrun.
  unfold upd_this in Hrun. run_pure_in Hrun. norm.
  rewrite (bind_step _ _ _ _ _
             (deref_run (length h5) (mkState (h5 ++ [_]) _ _ cl5 _ _) _
                (lookup_snoc h5 _))) in Hrun.
  cbn [type source fmap option_fmap option_map] in Hrun.
  cbn [_optionsBinding _isInitialized _prismaClient _options] in Hrun.
  set (nb := mkBinding componentConfigBindingKey None None [] false) in *.
  rewrite (bind_step _ _ _ _ _
             (app_bind_run_unlocked componentConfigBindingKey
                (mkState (h5 ++ [nb]) _ _ cl5 _ _) (length h5) nb
                (registry_get_snoc_fresh _ _ _ Hk) (lookup_snoc h5 nb) eq_refl))
    in Hrun.
  run_pure_in Hrun. norm. unfold binding_to in Hrun.
  assert (Hlast : ((h5 ++ [nb]) ++ [nb]) !! length (h5 ++ [nb]) = Some nb)
    by apply lookup_snoc.
  match type of Hrun with
  | update_binding ?r ?f ?s0 = _ =>
      rewrite (update_binding_run r f s0 nb Hlast) in Hrun
  end.
  injection Hrun as <-. norm. subst n. rewrite <- Hlen.
  rewrite insert_snoc.
  assert (Hreg : registry_set componentConfigBindingKey (length (h5 ++ [nb]))
                   (registry s ++ [(componentConfigBindingKey, length h5)])
                 = registry s ++ [(componentConfigBindingKey, S (length h5))]).
  { clear -Hk. rewrite length_app. cbn.
    induction (registry s) as [|[k0 r0] reg IH]; cbn in *.
    - rewrite String.eqb_refl. do 3 f_equal. lia.
    - destruct (String.eqb k0 componentConfigBindingKey); [done|].
      by rewrite IH. }
  rewrite Hreg. split_and!; try done.
  - rewrite !length_app. cbn. lia.
  - apply lookup_app_l_Some, lookup_snoc.
  - replace (S (length h5)) with (length (h5 ++ [nb]))
      by (rewrite length_app; cbn; lia).
    apply lookup_snoc.
Qed.

Lemma registry_get_snoc_ne k k' r reg :
  k' <> k -> registry_get k (reg ++ [(k', r)]) = registry_get k reg.
Proof.
  intros N. induction reg as [|[k0 r0] reg IH]; cbn.
  - destruct (String.eqb k' k) eqn:E; [|done].
    apply String.eqb_eq in E. contradiction.
  - by destruct (String.eqb k0 k).
Qed.

Lemma registry_wf_get s k r :
  registry_wf s -> registry_get k (registry s) = Some r -> r < length (heap s).
Proof.
  unfold registry_wf. intros Hwf. induction (registry s) as [|[k0 r0] reg IH];
    cbn in *; [discriminate|].
  inversion Hwf as [|? ? Hr0 Hwf']; subst.
  destruct (String.eqb k0 k); [by intros [= <-] | auto].
Qed.

(** X18: the constructor on a container with nothing bound under the
    configuration key binds the key to the effective options (the caller's,
    or the defaults, with the model defaults filled in) as an unlocked
    constant.  The binding object the component keeps in [_optionsBinding]
    is another object than the registered one, and has no value. *)
Theorem X18_unconfigured_constructor (s s1 : State) (supplied : option nat)
    (options : option PrismaOptions) :
  registry_get componentConfigBindingKey (registry s) = None ->
  constructor supplied options s = (Normal tt, s1) ->
  _options (this s1) =
    augment_defaults (default DEFAULT_PRISMA_OPTIONS options) /\
  exists r b ob bo,
    registry_get componentConfigBindingKey (registry s1) = Some r /\
    heap s1 !! r = Some b /\
    source b = Some (CONSTANT, VOptions (_options (this s1))) /\
    isLocked b = false /\
    _optionsBinding (this s1) = Some ob /\ ob <> r /\
    heap s1 !! ob = Some bo /\ source bo = None.
Proof.
  intros Hk Hrun.
  destruct (constructor_unconfigured _ _ _ _ Hk Hrun)
    as (Hob & _ & Ho & Hreg & _ & Hb1 & Hb2).
  split; [exact Ho|].
  eexists (S (length (heap s))), _, (length (heap s)), _.
  split_and!; [|exact Hb2|done|done|exact Hob|lia|exact Hb1|done].
  rewrite Hreg. apply registry_get_snoc_fresh, Hk.
Qed.

(** X19: for a component constructed on a container with nothing bound
    under the configuration key, a successful [init()] leaves the registered
    configuration binding unlocked, so that the key can be bound again
    afterwards: the binding that [init()] locks is the object the component
    keeps, not the registered one. *)
Theorem X19_standalone_options_unlocked (s s1 s2 : State)
    (supplied : option nat) (options : option PrismaOptions) :
  registry_wf s ->
  registry_get componentConfigBindingKey (registry s) = None ->
  componentConfigBindingKey <> PRISMA_CLIENT_INSTANCE ->
  (forall n, n ∈ ModelName -> componentConfigBindingKey <> model_key n) ->
  constructor supplied options s = (Normal tt, s1) ->
  init s1 = (Normal tt, s2) ->
  exists r b,
    registry_get componentConfigBindingKey (registry s2) = Some r /\
    heap s2 !! r = Some b /\
    source b = Some (CONSTANT, VOptions (_options (this s1))) /\
    isLocked b = false /\
    _optionsBinding (this s2) <> Some r /\
    (app_bind componentConfigBindingKey s2).1 = Normal (length (heap s2)).
Proof.
  intros Hwf Hk Hnc Hnm Hctor Hrun.
  destruct (constructor_unconfigured _ _ _ _ Hk Hctor)
    as (Hob & Hi & _ & Hreg & Hlen & _ & Hb2).
  set (n := length (heap s)) in *.
  set (b2 := mkBinding componentConfigBindingKey
               (Some (CONSTANT, VOptions (_options (this s1)))) None [] false)
    in *.
  destruct (init_effects _ _ Hi Hrun)
    as (c & rc & ob & sl & vs & _ & Hob2 & Hob1 & H12 & Hrc & _ & _ & Hreg2 & _
        & _ & _ & _ & [ext Hext] & Hother & _ & _).
  assert (ob = n) by congruence. subst ob.
  assert (Hr1 : registry_get componentConfigBindingKey (registry s1)
                = Some (S n))
    by (rewrite Hreg; apply registry_get_snoc_fresh, Hk).
  assert (Hbl : heap sl !! S n = Some b2).
  { apply bind_Normal in H12 as ([] & sa & H1 & H2).
    pose proof (resolve_client_Normal _ _ H1)
      as (c1 & _ & Hoba & _ & _ & _ & Hcont).
    pose proof (lock_bindings_Normal _ _ H2)
      as (rc' & ob' & Hrc' & Hob' & _ & _ & ->).
    cbn [heap registry] in *.
    assert (ob' = n) by congruence. subst ob'.
    assert (rc' = rc) by congruence. subst rc'.
    assert (Hba : heap sa !! S n = Some b2)
      by (destruct Hcont as [[-> _] | (-> & _)];
          [done | by apply lookup_app_l_Some]).
    assert (Nrc : rc <> S n).
    { destruct Hcont as [[_ E] | (_ & E & _)]; rewrite E in Hrc'.
      - rewrite Hreg, registry_get_snoc_ne in Hrc' by done.
        pose proof (registry_wf_get _ _ _ Hwf Hrc'). lia.
      - rewrite registry_get_set, String.eqb_refl in Hrc'.
        injection Hrc' as <-. lia. }
    rewrite !list_lookup_alter_ne by lia. exact Hba. }
  assert (Hb : heap s2 !! S n = Some b2)
    by (rewrite Hext; by apply lookup_app_l_Some).
  assert (Hr : registry_get componentConfigBindingKey (registry s2)
               = Some (S n))
    by (rewrite (Hother _ Hnm), (Hreg2 _ Hnc); exact Hr1).
  exists (S n), b2. split_and!; try done.
  - rewrite Hob2. intros [=]. lia.
  - by rewrite (app_bind_run_unlocked _ _ _ _ Hr Hb eq_refl).
Qed.

End Properties.

(** ** The theorems at concrete applications *)

#[local] Existing Instance Sample.keys.
#[local] Existing Instance Sample.schema.

Lemma C1_witness :
  init Sample.initialized = (Normal tt, Sample.initialized) /\
  (init;; init) Sample.standalone = init Sample.standalone.
Proof.
  apply (C1_init_idempotent Sample.standalone Sample.initialized).
  vm_compute. reflexivity.
Defined.

(** C2 at the empty application: [new PrismaComponent(app)] binds the
    options twice, keeps the first binding object and registers the second;
    [init()] locks the one it keeps.  The binding registered under the
    configuration key is left unlocked and can be rebound. *)
Theorem C2_options_binding_left_unlocked :
  init Sample.standalone = (Normal tt, Sample.initialized) /\
  _optionsBinding (this Sample.initialized) = Some 0 /\
  registry_get componentConfigBindingKey (registry Sample.initialized)
    = Some 1 /\
  isLocked <$> heap Sample.initialized !! 0 = Some true /\
  isLocked <$> heap Sample.initialized !! 1 = Some false /\
  fst (app_bind componentConfigBindingKey Sample.initialized) = Normal 5 /\
  fst (app_bind PRISMA_CLIENT_INSTANCE Sample.initialized) =
    Throw (ContextError RebindLocked PRISMA_CLIENT_INSTANCE).
Proof. vm_compute. repeat split. Qed.

Lemma C3_witness :
  fst (constructor (Some 1) None Sample.bound_client)
    = Throw (JsError conflict_message) /\
  (_ensureNoConflictingPrismaProvidedAndBound (Some 0) Sample.bound_client
     = (Normal tt, Sample.bound_client) /\
   fst (constructor (Some 0) None Sample.bound_client)
     <> Throw (JsError conflict_message)).
Proof.
  pose proof (proj2 (C3_conflicting_client Sample.bound_client None)) as Hcheck.
  split.
  - apply (proj1 (Hcheck 1 (Some (VClient 0)) eq_refl) (VClient 0));
      [reflexivity | discriminate | discriminate].
  - apply (proj2 (Hcheck 0 (Some (VClient 0)) eq_refl)). left. reflexivity.
Defined.



Lemma C5_witness :
  start Sample.lazy = (Normal tt, Sample.lazy) /\
  (start Sample.initialized = client_connect 0 Sample.initialized /\
   trace (snd (start Sample.initialized)) =
     trace Sample.initialized ++ [EConnect 0] /\
   fst (start Sample.initialized) = Normal tt) /\
  (_isInitialized (this Sample.initialized) = true /\
   start Sample.standalone = start Sample.initialized).
Proof.
  split; [|split].
  - apply (proj1 (proj1 (C5_start Sample.lazy) eq_refl)). reflexivity.
  - apply (proj2 (proj1 (C5_start Sample.initialized) eq_refl)) with
      (cl := mkClient None [] None); [discriminate | reflexivity | reflexivity].
  - apply (proj1 (proj2 (C5_start Sample.standalone) eq_refl)).
    vm_compute. reflexivity.
Defined.

(** C6 in the words of the specification does not hold: a client bound
    through a factory, as a singleton, makes [init()] throw the plain [Error]
    of a binding that is not constant, not the dedicated
    [PrismaClientNotSingletonError]. *)
Lemma C6_counterexample :
  _isInitialized (this Sample.factory_bound) = false /\
  registry_get PRISMA_CLIENT_INSTANCE (registry Sample.factory_bound)
    = Some 0 /\
  type <$> heap Sample.factory_bound !! 0 = Some (Some DYNAMIC_VALUE) /\
  init Sample.factory_bound =
    (Throw (JsError not_constant_message), Sample.factory_bound) /\
  fst (init Sample.factory_bound) <> Throw PrismaClientNotSingletonError.
Proof. vm_compute. repeat split. discriminate. Qed.

Lemma C6_witness :
  init Sample.transient_bound =
    (Throw PrismaClientNotSingletonError, Sample.transient_bound).
Proof.
  destruct (C6_invalid_client_binding Sample.transient_bound 0 0
              (mkBinding PRISMA_CLIENT_INSTANCE (Some (CONSTANT, VClient 0))
                         None [] false))
    as (e & Hrun & Hkind);
    [reflexivity | reflexivity | reflexivity | reflexivity
    | left; discriminate |].
  destruct (Hkind CONSTANT eq_refl) as [Hscope _].
  rewrite Hrun, (Hscope ltac:(discriminate)). reflexivity.
Defined.

(** A component that was not handed the client that the application bound:
    [init()] does not look at the binding; it makes a client of its own and
    registers it in place of the bound one. *)
Example init_replaces_unsupplied_client :
  scope <$> heap Sample.bound_not_supplied !! 0 = Some TRANSIENT /\
  fst (init Sample.bound_not_supplied) = Normal tt /\
  fst (app_getSync PRISMA_CLIENT_INSTANCE Sample.bound_not_supplied)
    = Normal (VClient 0) /\
  fst (app_getSync PRISMA_CLIENT_INSTANCE (snd (init Sample.bound_not_supplied)))
    = Normal (VClient 2).
Proof. vm_compute. repeat split. Qed.

Lemma C7_witness :
  (forall r b, heap Sample.initialized !! r = Some b ->
     type b <> Some CONSTANT \/ scope b <> SINGLETON ->
     use_on_bind r Sample.initialized =
       (Throw (JsError middleware_message), Sample.initialized)) /\
  exists s',
    register_middleware "mw4" CONSTANT (VMiddleware 4) None Sample.initialized
      = (Throw (JsError middleware_message), s') /\
    clients s' = clients Sample.initialized /\
    trace s' = trace Sample.initialized ++ [EAdd 5; ELock 5].
Proof.
  apply (C7_reject_before_attach Sample.initialized "mw4" CONSTANT
           (VMiddleware 4) None).
  - right. discriminate.
  - reflexivity.
  - reflexivity.
Defined.

(** C8 at an application whose schema has the models [User] and
    [BlogPost]: [init()] registers one locked, tagged constant per model.
    The one of [User] holds [client.user], the accessor of the model.  The
    one of [BlogPost] holds [client.blogpost], a property that the client
    does not have: the accessor of the model is [client.blogPost]. *)
Theorem C8_accessor_missed_by_case :
  ModelName = ["User"; "BlogPost"] /\
  init Sample.standalone = (Normal tt, Sample.initialized) /\
  registry_get (model_key "User") (registry Sample.initialized) = Some 3 /\
  heap Sample.initialized !! 3 =
    Some (mkBinding "prismaModels.User" (Some (CONSTANT, VProperty 0 "user"))
            None [("prismaModel", "prismaModel")] true) /\
  client_accessor "user" = Some "User" /\
  registry_get (model_key "BlogPost") (registry Sample.initialized) = Some 4 /\
  heap Sample.initialized !! 4 =
    Some (mkBinding "prismaModels.BlogPost"
            (Some (CONSTANT, VProperty 0 "blogpost"))
            None [("prismaModel", "prismaModel")] true) /\
  toLowerCase "BlogPost" = "blogpost" /\
  client_accessor "blogpost" = None /\
  accessor_name "BlogPost" = "blogPost" /\
  client_accessor "blogPost" = Some "BlogPost".
Proof. vm_compute. repeat split. Qed.

(** C9 in the words of the specification does not hold: with an options
    record in which nothing is set, the effective options have no [models]
    member and no [lazyConnect], where the merge over the defaults has
    both. *)
Lemma C9_counterexample :
  let run := constructor None (Some Sample.nothing_set) Sample.empty in
  fst run = Normal tt /\
  _options (this (snd run)) = mkOptions None None None /\
  merge_over_defaults Sample.nothing_set = DEFAULT_PRISMA_OPTIONS /\
  _options (this (snd run)) <> merge_over_defaults Sample.nothing_set.
Proof. vm_compute. repeat split. discriminate. Qed.

Lemma C9_witness :
  let effective :=
    _options (this (snd (constructor None (Some Sample.empty_models)
                           Sample.empty))) in
  lazyConnect effective = None /\
  models effective =
    Some (mkModels (Some "prismaModels") (Some ["prismaModel"])).
Proof.
  intros effective.
  assert (Hrun : constructor None (Some Sample.empty_models) Sample.empty
                 = (Normal tt,
                    snd (constructor None (Some Sample.empty_models)
                           Sample.empty)))
    by (vm_compute; reflexivity).
  destruct (C9_effective_options _ _ _ _ Hrun) as [_ Hset].
  destruct (Hset Sample.empty_models eq_refl) as (_ & Hlazy & _ & _ & Hmodels).
  split; [exact Hlazy|]. exact (Hmodels (mkModels None None) eq_refl).
Defined.

Lemma C10_witness :
  (forall modelName, modelName ∈ ["User"; "BlogPost"] ->
     exists r b,
       registry_get ("prismaModels" +:+ "." +:+ modelName)
                    (registry (snd (init Sample.custom))) = Some r /\
       heap (snd (init Sample.custom)) !! r = Some b /\
       key b = "prismaModels" +:+ "." +:+ modelName /\
       tagMap b = [("prismaModel", "prismaModel")]) /\
  (forall k, k <> "datasources.prisma" ->
     (forall modelName, modelName ∈ ["User"; "BlogPost"] ->
        k <> "prismaModels" +:+ "." +:+ modelName) ->
     registry_get k (registry (snd (init Sample.custom))) =
       registry_get k (registry Sample.custom)).
Proof.
  refine (C10_models_ignore_options Sample.custom (snd (init Sample.custom))
            eq_refl _).
  vm_compute. reflexivity.
Defined.

(** The options of [Sample.custom] name another namespace and another tag;
    nothing is bound under them. *)
Example custom_namespace_unused :
  models (_options (this (snd (init Sample.custom)))) =
    Some (mkModels (Some "customPrismaModelNamespace")
                   (Some ["customPrismaModelTag"])) /\
  registry_get "customPrismaModelNamespace.User"
               (registry (snd (init Sample.custom))) = None /\
  (fst <$> registry (snd (init Sample.custom))) =
    ["components.PrismaComponent:$config"; "datasources.prisma";
     "prismaModels.User"; "prismaModels.BlogPost"].
Proof. vm_compute. repeat split. Qed.

(** ** The further properties at concrete applications *)

Lemma X1_witness :
  stop Sample.standalone = (Normal tt, Sample.standalone) /\
  stop Sample.initialized =
    (Normal tt,
     set_trace (trace Sample.initialized ++ [EDisconnect 0]) Sample.initialized).
Proof.
  split.
  - apply (proj1 (X1_stop Sample.standalone)). reflexivity.
  - apply (proj2 (X1_stop Sample.initialized) eq_refl 0 (mkClient None [] None));
      reflexivity.
Defined.

Lemma X2_witness :
  isInitialized Sample.standalone = (Normal false, Sample.standalone) /\
  isInitialized Sample.initialized = (Normal true, Sample.initialized) /\
  isInitialized Sample.transient_bound = (Normal false, Sample.transient_bound).
Proof.
  split_and!.
  - apply (proj1 (X2_isInitialized Sample.empty) None None).
    vm_compute. reflexivity.
  - apply (proj1 (proj2 (X2_isInitialized Sample.standalone))).
    vm_compute. reflexivity.
  - apply (proj2 (proj2 (X2_isInitialized Sample.transient_bound))
             PrismaClientNotSingletonError).
    + reflexivity.
    + vm_compute. reflexivity.
Defined.

Lemma X3_witness :
  (exists rc,
     registry_get PRISMA_CLIENT_INSTANCE (registry Sample.initialized)
       = Some rc /\
     is_locked (heap Sample.initialized) rc) /\
  (exists ob, _optionsBinding (this Sample.initialized) = Some ob /\
              is_locked (heap Sample.initialized) ob) /\
  fst (app_bind PRISMA_CLIENT_INSTANCE Sample.initialized) =
    Throw (ContextError RebindLocked PRISMA_CLIENT_INSTANCE).
Proof.
  apply (X3_client_binding_locked Sample.standalone Sample.initialized).
  - reflexivity.
  - vm_compute. reflexivity.
Defined.

Lemma X4_witness :
  let s2 := snd ((constructor None None;; init) Sample.configured) in
  registry_get componentConfigBindingKey (registry s2) = Some 0 /\
  is_locked (heap s2) 0 /\
  fst (app_bind componentConfigBindingKey s2) =
    Throw (ContextError RebindLocked componentConfigBindingKey).
Proof.
  refine (X4_configured_options_locked Sample.configured
            (snd (constructor None None Sample.configured)) _ None None 0
            (mkBinding componentConfigBindingKey
               (Some (CONSTANT, VOptions (mkOptions None (Some true) None)))
               None [] false) _ _ _ _ _ _).
  - reflexivity.
  - reflexivity.
  - discriminate.
  - discriminate.
  - vm_compute. reflexivity.
  - vm_compute. reflexivity.
Defined.

Lemma X5_witness :
  constructor (Some 1) None Sample.bound_client =
  (Throw (JsError conflict_message),
   mkState (heap Sample.bound_client) (registry Sample.bound_client)
     (listeners Sample.bound_client) (clients Sample.bound_client)
     (mkComponent None false (Some 1) DEFAULT_PRISMA_OPTIONS)
     (trace Sample.bound_client)).
Proof.
  apply (X5_conflict_leaves_container Sample.bound_client 1 (VClient 0) None).
  - reflexivity.
  - discriminate.
  - discriminate.
Defined.

Lemma X8_witness :
  listeners Sample.standalone = [LockOnBind] /\
  listeners Sample.initialized = [LockOnBind; UseOnBind].
Proof.
  apply (X8_listeners Sample.empty Sample.standalone Sample.initialized
           None None).
  - vm_compute. reflexivity.
  - vm_compute. reflexivity.
Defined.

Lemma X9_witness :
  is_locked (heap Sample.with_backlog) 2 /\
  is_locked (heap (snd (init Sample.with_backlog))) 2.
Proof.
  assert (Hl : is_locked (heap Sample.with_backlog) 2)
    by (vm_compute; eexists; split; reflexivity).
  split; [exact Hl|].
  refine (proj1 (proj2 X9_locks_are_kept) Sample.with_backlog (Normal tt)
            _ _ 2 Hl).
  vm_compute. reflexivity.
Defined.

Lemma X10_witness :
  view_refs Sample.early_middleware = [0] /\
  is_locked (heap (snd (constructor None None Sample.early_middleware))) 0.
Proof.
  split; [reflexivity|].
  refine (X10_constructor_locks_backlog Sample.early_middleware _ None None
            _ 0 _).
  - vm_compute. reflexivity.
  - vm_compute. apply list_elem_of_here.
Defined.

Lemma X11_witness :
  registry_wf Sample.standalone /\ registry_wf Sample.initialized.
Proof.
  assert (Hwf : registry_wf Sample.standalone)
    by (unfold registry_wf; vm_compute; repeat constructor).
  split; [exact Hwf|].
  refine (proj1 (proj2 X11_registry_stays_wf) Sample.standalone (Normal tt)
            _ _ Hwf).
  vm_compute. reflexivity.
Defined.

Lemma X12_witness :
  (_prismaClient (this (snd (init Sample.handed))) = Some 0 /\
   _options (this (snd (init Sample.handed))) = _options (this Sample.handed) /\
   length (clients (snd (init Sample.handed))) = length (clients Sample.handed))
  /\
  (exists o,
     fst (app_get componentConfigBindingKey Sample.standalone)
       = Normal (VOptions o) /\
     _options (this Sample.initialized) = o /\
     _prismaClient (this Sample.initialized)
       = Some (length (clients Sample.standalone)) /\
     length (clients Sample.initialized)
       = S (length (clients Sample.standalone)) /\
     clientOptions <$>
       clients Sample.initialized !! length (clients Sample.standalone)
       = Some (prismaClient o) /\
     connectFails <$>
       clients Sample.initialized !! length (clients Sample.standalone)
       = Some (connectOutcome (prismaClient o))).
Proof.
  split.
  - refine (proj1 (X12_options_of_init Sample.handed _ _ _) 0 _).
    + reflexivity.
    + vm_compute. reflexivity.
    + reflexivity.
  - refine (proj2 (X12_options_of_init Sample.standalone Sample.initialized
                     _ _) _).
    + reflexivity.
    + vm_compute. reflexivity.
    + reflexivity.
Defined.

Lemma X13_witness :
  exists c rc b,
    _prismaClient (this Sample.initialized) = Some c /\
    registry_get PRISMA_CLIENT_INSTANCE (registry Sample.initialized)
      = Some rc /\
    heap Sample.initialized !! rc = Some b /\
    isLocked b = true /\ scope b = SINGLETON /\
    (source b = Some (CONSTANT, VClient c) \/
     source b = Some (CONSTANT, VNull) /\
     fst (app_getSync_optional PRISMA_CLIENT_INSTANCE Sample.standalone)
       = Normal (Some VNull)).
Proof.
  apply (X13_client_binding_after_init Sample.standalone Sample.initialized).
  - reflexivity.
  - vm_compute. reflexivity.
Defined.

Lemma X14_witness :
  exists s',
    init Sample.second =
      (Throw (ContextError RebindLocked PRISMA_CLIENT_INSTANCE), s') /\
    _isInitialized (this s') = false /\
    _prismaClient (this s') = Some (length (clients Sample.second)) /\
    registry s' = registry Sample.second /\
    listeners s' = listeners Sample.second /\
    clients s' =
      clients Sample.second ++
        [mkClient (prismaClient DEFAULT_PRISMA_OPTIONS) []
           (connectOutcome (prismaClient DEFAULT_PRISMA_OPTIONS))] /\
    trace s' = trace Sample.second ++ [ENewClient (length (clients Sample.second))].
Proof.
  refine (X14_locked_client_key Sample.second DEFAULT_PRISMA_OPTIONS 2
            _ _ _ _ _).
  - reflexivity.
  - reflexivity.
  - vm_compute. reflexivity.
  - reflexivity.
  - vm_compute. eexists. split; reflexivity.
Defined.

Lemma X15_witness :
  exists k,
    init Sample.valueless_middleware =
      (Throw (ContextError NoValueConfigured k),
       snd ((resolve_client;; lock_bindings) Sample.valueless_middleware)) /\
    _isInitialized
      (this (snd ((resolve_client;; lock_bindings)
                    Sample.valueless_middleware))) = false /\
    listeners (snd ((resolve_client;; lock_bindings)
                      Sample.valueless_middleware))
      = listeners Sample.valueless_middleware /\
    forall c,
      middlewares_of c
        (snd ((resolve_client;; lock_bindings) Sample.valueless_middleware))
      = middlewares_of c Sample.valueless_middleware.
Proof.
  apply (X15_backlog_all_or_nothing Sample.valueless_middleware).
  - reflexivity.
  - vm_compute. reflexivity.
  - exists 2, (mkBinding "mw0" None None
                 [("extensionFor", PRISMA_MIDDLEWARE_EXTENSION_POINT)] true).
    split_and!.
    + vm_compute. apply list_elem_of_here.
    + reflexivity.
    + reflexivity.
Defined.

Lemma X16_witness :
  (forall k, is_Some (registry_get k (registry Sample.with_backlog)) ->
     is_Some (registry_get k (registry (snd (init Sample.with_backlog))))) /\
  registry_get "mw1" (registry (snd (init Sample.with_backlog))) = Some 2 /\
  is_locked (heap (snd (init Sample.with_backlog))) 2.
Proof.
  destruct (X16_init_keeps_bindings Sample.with_backlog
              (snd (init Sample.with_backlog)) eq_refl)
    as [Hbound Hlocked].
  - vm_compute. reflexivity.
  - split; [exact Hbound|].
    apply (Hlocked "mw1" 2).
    + reflexivity.
    + vm_compute. eexists. split; reflexivity.
Defined.

Lemma X17_witness :
  let s' := snd (start Sample.initialized) in
  heap s' = heap Sample.initialized /\
  registry s' = registry Sample.initialized /\
  listeners s' = listeners Sample.initialized /\
  clients s' = clients Sample.initialized /\
  this s' = this Sample.initialized /\
  (trace s' = trace Sample.initialized \/
   exists c, trace s' = trace Sample.initialized ++ [EConnect c]).
Proof.
  refine (X17_start_touches_nothing Sample.initialized _ (Normal tt) _ _).
  - reflexivity.
  - vm_compute. reflexivity.
Defined.

Lemma X18_witness :
  _options (this Sample.custom) =
    augment_defaults (default DEFAULT_PRISMA_OPTIONS (Some Sample.custom_models))
  /\
  exists r b ob bo,
    registry_get componentConfigBindingKey (registry Sample.custom) = Some r /\
    heap Sample.custom !! r = Some b /\
    source b = Some (CONSTANT, VOptions (_options (this Sample.custom))) /\
    isLocked b = false /\
    _optionsBinding (this Sample.custom) = Some ob /\ ob <> r /\
    heap Sample.custom !! ob = Some bo /\ source bo = None.
Proof.
  apply (X18_unconfigured_constructor Sample.empty Sample.custom None
           (Some Sample.custom_models)).
  - reflexivity.
  - vm_compute. reflexivity.
Defined.

Lemma X19_witness :
  exists r b,
    registry_get componentConfigBindingKey (registry Sample.initialized)
      = Some r /\
    heap Sample.initialized !! r = Some b /\
    source b = Some (CONSTANT, VOptions (_options (this Sample.standalone))) /\
    isLocked b = false /\
    _optionsBinding (this Sample.initialized) <> Some r /\
    (app_bind componentConfigBindingKey Sample.initialized).1
      = Normal (length (heap Sample.initialized)).
Proof.
  apply (X19_standalone_options_unlocked Sample.empty Sample.standalone
           Sample.initialized None None).
  - unfold registry_wf. vm_compute. constructor.
  - reflexivity.
  - discriminate.
  - intros n Hn. vm_compute in Hn.
    apply elem_of_cons in Hn as [-> | Hn];
      [discriminate | apply elem_of_cons in Hn as [-> | Hn]];
      [discriminate | by apply elem_of_nil in Hn].
  - vm_compute. reflexivity.
  - vm_compute. reflexivity.
Defined.
